(** * dlpl-api: session authentication and token revocation

    A shallow embedding of [src/authentication/main.py] (class
    [AuthHandler]) and of the login / refresh / logout routes of
    [src/routes/users.py], together with the properties of the
    authentication subsystem proved about them.

    Conventions of the embedding.
    - Time is an integer number of microseconds since the epoch (the
      resolution of [datetime]); a handler runs at one instant [now].
    - The zone of the server's local clock, which the naive datetimes of
      [lock_refresh_token] depend on, is a parameter ([localtime]).
    - Python exceptions are the type [exn]; a call that may raise returns
      a [result]; code that also talks to Redis lives in the monad [M].
    - PyJWT and Redis are third-party collaborators.  They are modelled
      symbolically by their documented behaviour in the modules [jwt] and
      [Redis] below; everything in [AuthHandler] and in the routes is
      translated from the source line by line. *)

From Stdlib Require Import ZArith NArith String Ascii DecimalString.
From stdpp Require Import base option list gmap fin_maps strings.

(** ** Python values and dictionaries *)

(** The JSON scalars that occur as claim values. *)
Inductive pyval :=
| VNone
| VBool (b : bool)
| VInt (n : Z)
| VStr (s : string).

Global Instance pyval_eq_dec : EqDecision pyval.
Proof. solve_decision. Defined.

Abbreviation dict := (gmap string pyval).

(** [bool(v)], the truth value tested by [not v]. *)
Definition truthy (v : pyval) : bool :=
  match v with
  | VNone => false
  | VBool b => b
  | VInt n => negb (n =? 0)%Z
  | VStr s => match s with EmptyString => false | String _ _ => true end
  end.

(** [str(v)], as used by f-strings. *)
Definition py_str (v : pyval) : string :=
  match v with
  | VNone => "None"
  | VBool true => "True"
  | VBool false => "False"
  | VInt n => NilZero.string_of_int (Z.to_int n)
  | VStr s => s
  end.

(** [v == w]; [bool] is a subclass of [int], so [True == 1]. *)
Definition py_eq (v w : pyval) : bool :=
  match v, w with
  | VNone, VNone => true
  | VStr s, VStr t => String.eqb s t
  | VBool a, VBool b => Bool.eqb a b
  | VInt m, VInt n => (m =? n)%Z
  | VBool a, VInt n | VInt n, VBool a => ((if a then 1 else 0) =? n)%Z
  | _, _ => false
  end.

(** [d.get(k)] and [d.get(k, dflt)]. *)
Definition dict_get (k : string) (d : dict) : pyval := default VNone (d !! k).
Definition dict_get_or (k : string) (dflt : pyval) (d : dict) : pyval :=
  default dflt (d !! k).

(** [k in d]. *)
Definition dict_in (k : string) (d : dict) : bool := bool_decide (is_Some (d !! k)).

(** The truth value of what [redis.get] returns: [None] and the empty
    byte string are falsy. *)
Definition bytes_truthy (o : option string) : bool :=
  match o with
  | Some (String _ _) => true
  | _ => false
  end.

(** [s.startswith(p)]. *)
Definition startswith (s p : string) : bool := String.prefix p s.

(** ** Exceptions and results *)

Inductive exn :=
| HTTPException (status_code : N) (detail : string)
| ExpiredSignatureError                 (* jwt.ExpiredSignatureError *)
| InvalidTokenError (msg : string)      (* any other jwt.InvalidTokenError *)
| KeyError (key : string)
| TypeError (msg : string)
| ValueError_ (msg : string)            (* the built-in ValueError *)
| OverflowError (msg : string)
| OSError (msg : string)
| InvalidId (msg : string)              (* bson.errors.InvalidId *)
| ConnectionError (msg : string)        (* redis.exceptions.ConnectionError *)
| ResponseError (msg : string)          (* redis.exceptions.ResponseError *)
| DataError (msg : string).             (* redis.exceptions.DataError *)

Global Instance exn_eq_dec : EqDecision exn.
Proof. solve_decision. Defined.

Definition HTTP_200_OK : N := 200.
Definition HTTP_401_UNAUTHORIZED : N := 401.
Definition HTTP_403_FORBIDDEN : N := 403.
Definition HTTP_500_INTERNAL_SERVER_ERROR : N := 500.

(** [str(e)]: Starlette prints an [HTTPException] as "status: detail",
    [KeyError] prints the repr of its key, the others their message. *)
Definition exn_str (e : exn) : string :=
  match e with
  | HTTPException c d =>
      NilZero.string_of_uint (N.to_uint c) +:+ ": " +:+ d
  | ExpiredSignatureError => "Signature has expired"
  | KeyError k => "'" +:+ k +:+ "'"
  | InvalidTokenError m | TypeError m | InvalidId m
  | ValueError_ m | OverflowError m | OSError m
  | ConnectionError m | ResponseError m | DataError m => m
  end.

Inductive result (A : Type) :=
| Return (a : A)
| Raise (e : exn).
Arguments Return {A} a.
Arguments Raise {A} e.

Definition rbind {A B} (r : result A) (k : A → result B) : result B :=
  match r with
  | Return a => k a
  | Raise e => Raise e
  end.

Notation "x <-- r ;; k" := (rbind r (fun x => k))
  (at level 100, r at next level, right associativity, only parsing).

Definition is_Return {A} (r : result A) : bool :=
  match r with Return _ => true | Raise _ => false end.

(** ** PyJWT, modelled symbolically

    A token string is either a string that is not a well-formed HS256 JWS
    ([Raw]) or a JWS whose claims were signed under some key ([Jws]).
    [jwt.decode] checks, in this order, the structure, the signature and
    the [exp] claim; [exp <= now] is expired (PyJWT 2.5 and later).  The
    [exp] claim is a NumericDate in whole seconds.

    The tokens in scope are those the application issues and their
    variations on [sub], [refresh], [id], [is_active] and an integer
    [exp]: no [iat], [nbf], [aud] or [iss] claim, and an [exp] that,
    when present, is a JSON integer. *)
Module jwt.

Inductive token :=
| Raw (s : string)
| Jws (key : string) (claims : dict).

Definition usec : Z := 1000000.

Definition encode (payload : dict) (key : string) : token := Jws key payload.

Definition decode (tok : token) (key : string) (now : Z) : result dict :=
  match tok with
  | Raw _ => Raise (InvalidTokenError "Not enough segments")
  | Jws k payload =>
      if negb (String.eqb k key)
      then Raise (InvalidTokenError "Signature verification failed")
      else match payload !! "exp" with
           | None => Return payload
           | Some (VInt exp) =>
               if (exp * usec <=? now)%Z then Raise ExpiredSignatureError
               else Return payload
           | Some _ =>
               Raise (InvalidTokenError
                        "Expiration Time claim (exp) must be an integer.")
           end
  end.

End jwt.

Abbreviation token := jwt.token.

(** [not token] for a token string: only the empty string is falsy. *)
Definition token_truthy (t : token) : bool :=
  match t with
  | jwt.Raw EmptyString => false
  | _ => true
  end.

(** ** Redis, modelled as an expiring key-value store

    Every key carries the instant at which it expires; an expired key is
    invisible to every command.  [outage = Some msg] is a server that
    cannot be reached: every command raises [ConnectionError msg]. *)
Module Redis.

Record entry := Entry { value : string; expire_at : Z }.

Record db := Db { outage : option string; data : gmap string entry }.

Definition live (now : Z) (e : entry) : bool := (now <? expire_at e)%Z.

Definition lookup_live (now : Z) (key : string) (r : db) : option string :=
  match data r !! key with
  | Some e => if live now e then Some (value e) else None
  | None => None
  end.

(** Glob patterns made of literal characters and a final star. *)
Fixpoint glob (pattern key : string) : bool :=
  match pattern with
  | EmptyString => match key with EmptyString => true | _ => false end
  | String "*" EmptyString => true
  | String c pattern' =>
      match key with
      | String d key' => Ascii.eqb c d && glob pattern' key'
      | EmptyString => false
      end
  end.

End Redis.

(** The monad of code that uses the Redis client: state passing over the
    store, with exceptions. *)
Definition M (A : Type) : Type := Redis.db → result A * Redis.db.

Definition ret {A} (a : A) : M A := fun r => (Return a, r).
Definition raise {A} (e : exn) : M A := fun r => (Raise e, r).
Definition lift {A} (x : result A) : M A := fun r => (x, r).
Definition bind {A B} (m : M A) (k : A → M B) : M B :=
  fun r => match m r with
           | (Return a, r') => k a r'
           | (Raise e, r') => (Raise e, r')
           end.

Notation "x <- m ;; k" := (bind m (fun x => k))
  (at level 100, m at next level, right associativity, only parsing).

(** [for x in xs: body(x)]. *)
Fixpoint for_each {A} (xs : list A) (body : A → M unit) : M unit :=
  match xs with
  | [] => ret tt
  | x :: xs' => _ <- body x ;; for_each xs' body
  end.

Module RedisClient.
Import Redis.

Definition guard {A} (k : M A) : M A :=
  fun r => match outage r with
           | Some msg => (Raise (ConnectionError msg), r)
           | None => k r
           end.

Definition get (now : Z) (key : string) : M (option string) :=
  guard (fun r => (Return (lookup_live now key r), r)).

Definition setex (now : Z) (key : string) (ttl : Z) (v : string) : M unit :=
  guard (fun r =>
    if (ttl <=? 0)%Z
    then (Raise (ResponseError "invalid expire time in 'setex' command"), r)
    else (Return tt,
          Db (outage r)
             (<[key := Entry v (now + ttl * jwt.usec)]> (data r)))).

Definition delete (key : string) : M unit :=
  guard (fun r => (Return tt, Db (outage r) (delete key (data r)))).

(** The keys [scan_iter(match=pattern)] yields: the live keys that match. *)
Definition scan_iter (now : Z) (pattern : string) : M (list string) :=
  guard (fun r =>
    (Return (filter (fun k => glob pattern k && bool_decide (is_Some (lookup_live now k r)))
                    (fst <$> map_to_list (data r))), r)).

(** How redis-py encodes a key argument that is not already a string. *)
Definition encode_key (v : pyval) : result string :=
  match v with
  | VStr s => Return s
  | VInt n => Return (py_str (VInt n))
  | VBool _ =>
      Raise (DataError "Invalid input of type: 'bool'. Convert to a bytes, string, int or float first.")
  | VNone =>
      Raise (DataError "Invalid input of type: 'NoneType'. Convert to a bytes, string, int or float first.")
  end.

End RedisClient.

(** ** [uuid4().hex]

    The 128 random bits are an input of the model; [hex] renders them as
    32 lower-case hexadecimal digits. *)
Module uuid.

Definition hex_digit (d : N) : ascii :=
  match d with
  | 0 => "0" | 1 => "1" | 2 => "2" | 3 => "3" | 4 => "4" | 5 => "5"
  | 6 => "6" | 7 => "7" | 8 => "8" | 9 => "9" | 10 => "a" | 11 => "b"
  | 12 => "c" | 13 => "d" | 14 => "e" | _ => "f"
  end%N%char.

Fixpoint hex_of (digits : nat) (n : N) (acc : string) : string :=
  match digits with
  | O => acc
  | S k => hex_of k (n / 16)%N (String (hex_digit (n mod 16)%N) acc)
  end.

Definition hex (bits : N) : string := hex_of 32 bits "".

End uuid.

(** ** [class AuthHandler] *)

Record AuthHandler := { secret : string }.

Record Request := { cookies : gmap string token }.

Record HTTPAuthorizationCredentials := { credentials : token }.

Definition Invalid_token : exn := HTTPException HTTP_401_UNAUTHORIZED "Invalid token".
Definition Signature_has_expired : exn :=
  HTTPException HTTP_401_UNAUTHORIZED "Signature has expired".
Definition Token_locked : exn := HTTPException HTTP_401_UNAUTHORIZED "Token locked".
Definition Token_not_found : exn := HTTPException HTTP_401_UNAUTHORIZED "Token not found".

(** [payload[k]]. *)
Definition subscript (payload : dict) (k : string) : result pyval :=
  match payload !! k with
  | Some v => Return v
  | None => Raise (KeyError k)
  end.

(** The two [except] clauses shared by the decoders; any other exception,
    [HTTPException] included, passes through. *)
Definition except_jwt {A} (body : result A) : result A :=
  match body with
  | Raise ExpiredSignatureError => Raise Signature_has_expired
  | Raise (InvalidTokenError _) => Raise Invalid_token
  | r => r
  end.

(** [timegm(dt.utctimetuple())]: PyJWT stores a datetime claim in whole
    seconds. *)
Definition timegm (t : Z) : Z := (t / jwt.usec)%Z.

Definition minutes (n : Z) : Z := (n * 60 * jwt.usec)%Z.
Definition hours (n : Z) : Z := (n * 3600 * jwt.usec)%Z.

Definition encode_token (self : AuthHandler) (user_data : dict) (type : string)
    (now : Z) (uuid4 : N) : token :=
  let payload : dict :=
    <["name" := dict_get "name" user_data]>
    (<["sub" := dict_get "id" user_data]>
    (<["is_active" := dict_get_or "is_active" (VBool false) user_data]>
    (<["admin" := dict_get_or "admin" (VBool false) user_data]>
    (<["id" := VStr (uuid.hex uuid4)]> ∅)))) in
  let to_encode :=
    if String.eqb type "access_token"
    then <["refresh" := VBool false]>
           (<["exp" := VInt (timegm (now + minutes 60))]> payload)
    else <["refresh" := VBool true]>
           (<["exp" := VInt (timegm (now + hours 720))]> payload) in
  jwt.encode to_encode (secret self).

Definition encode_login_token (self : AuthHandler) (user_data : dict)
    (now : Z) (uuid_a uuid_r : N) : M (token * token) :=
  let pattern := "token:*" in
  keys <- RedisClient.scan_iter now pattern ;;
  _ <- for_each keys (fun key =>
         value <- RedisClient.get now key ;;
         if bytes_truthy value
            && startswith (default "" value)
                 (py_str (dict_get "id" user_data) +:+ ":")
         then RedisClient.delete key
         else ret tt) ;;
  let access_token := encode_token self user_data "access_token" now uuid_a in
  let refresh_token := encode_token self user_data "refresh_token" now uuid_r in
  ret (access_token, refresh_token).

Definition decode_access_token (self : AuthHandler) (tok : token) (now : Z)
    : result dict :=
  except_jwt
    (payload <-- jwt.decode tok (secret self) now ;;
     if negb (dict_in "sub" payload) then Raise Invalid_token
     else
       refresh <-- subscript payload "refresh" ;;
       if py_eq refresh (VBool true) then Raise Invalid_token
       else Return payload).

Definition decode_refresh_token (self : AuthHandler) (tok : token) (now : Z)
    : result dict :=
  except_jwt
    (payload <-- jwt.decode tok (secret self) now ;;
     if negb (dict_in "sub" payload) then Raise Invalid_token
     else
       refresh <-- subscript payload "refresh" ;;
       if py_eq refresh (VBool false) then Raise Invalid_token
       else Return payload).

(** *** The local clock

    [lock_refresh_token] subtracts two naive local datetimes.  The zone of
    the process is a parameter: [utcoffset t] is the offset of local time
    from UTC at the instant [t], in microseconds, and [out_of_range t] is
    what the platform raises for an instant whose local time has no year
    between 1 and 9999 (a [ValueError], an [OverflowError] or an
    [OSError], depending on the platform and on the distance).  The
    platform's [localtime] is taken to convert every instant in between,
    as it does on Linux. *)
Record localtime := Localtime {
  utcoffset : Z → Z;
  out_of_range : Z → exn
}.

(** [datetime.min] and [datetime.max] as microseconds since the epoch of
    a naive datetime read as UTC. *)
Definition datetime_min : Z := -62135596800000000.
Definition datetime_max : Z := 253402300799999999.

(** [datetime.fromtimestamp(t)] without [tz]: the naive local time at the
    instant [t], as microseconds since 1970-01-01 00:00 on the local
    wall clock.  [datetime.now()] is [fromtimestamp(time.time())]. *)
Definition fromtimestamp (local : localtime) (t : Z) : result Z :=
  let wall := (t + utcoffset local t)%Z in
  if (datetime_min <=? wall)%Z && (wall <=? datetime_max)%Z then Return wall
  else Raise (out_of_range local t).

(** The quotient [n / d] rounded to the nearest integer, ties to even;
    [0 <= n] and [0 < d]. *)
Definition round_half_even (n d : Z) : Z :=
  let q := (n / d)%Z in
  let r := (n mod d)%Z in
  if (2 * r <? d)%Z then q
  else if (d <? 2 * r)%Z then (q + 1)%Z
  else if Z.even q then q else (q + 1)%Z.

(** [int(a / d)] for two ints [0 <= a] and [0 < d]: the true division
    gives the float nearest to the quotient, a 53-bit significand [m]
    scaled by a power of two, and [int] truncates it.  [b] is the binary
    exponent of the quotient, [2^b <= a / d < 2^(b+1)]; exponents are far
    from the ends of the float range for the operands met here. *)
Definition int_true_divide (a d : Z) : Z :=
  if (a =? 0)%Z then 0%Z
  else
    let b0 := (Z.log2 a - Z.log2 d)%Z in
    let b := if (a * 2 ^ Z.max 0 (- b0) <? d * 2 ^ Z.max 0 b0)%Z
             then (b0 - 1)%Z else b0 in
    let s := (52 - b)%Z in
    if (0 <=? s)%Z then (round_half_even (a * 2 ^ s) d / 2 ^ s)%Z
    else (round_half_even a (d * 2 ^ (- s)) * 2 ^ (- s))%Z.

(** [int(delta.total_seconds())] for a timedelta of [us] microseconds:
    [total_seconds] is the true division of the microseconds by [10**6],
    odd in its argument, and [int] truncates towards zero. *)
Definition int_total_seconds (us : Z) : Z :=
  (Z.sgn us * int_true_divide (Z.abs us) jwt.usec)%Z.

(** 2^34 seconds in microseconds: the float quotient of a shorter
    timedelta keeps every whole second. *)
Definition exact_span : Z := 17179869184000000.

(** By how much the local offset at the expiry of a token differs from
    the offset at [now]. *)
Definition offset_change (local : localtime) (now exp : Z) : Z :=
  (utcoffset local (exp * jwt.usec) - utcoffset local now)%Z.

(** [fromtimestamp] with an argument that is no number. *)
Definition not_an_integer (type_name : string) : exn :=
  TypeError ("'" +:+ type_name +:+ "' object cannot be interpreted as an integer").

(** [int((datetime.fromtimestamp(expiration) - datetime.now()).total_seconds())]:
    the two operands are naive local times, each with the offset of its
    own instant, and the left one is evaluated first.  A [bool] is an
    [int]. *)
Definition remaining_seconds (local : localtime) (expiration : pyval) (now : Z)
    : result Z :=
  let seconds_until (exp : Z) :=
    wall_exp <-- fromtimestamp local (exp * jwt.usec) ;;
    wall_now <-- fromtimestamp local now ;;
    Return (int_total_seconds (wall_exp - wall_now)) in
  match expiration with
  | VInt exp => seconds_until exp
  | VBool b => seconds_until (if b then 1 else 0)%Z
  | VStr _ => Raise (not_an_integer "str")
  | VNone => Raise (not_an_integer "NoneType")
  end.

Definition lock_refresh_token (self : AuthHandler) (local : localtime)
    (tok : token) (now : Z) : M pyval :=
  payload <- lift (decode_refresh_token self tok now) ;;
  let token_id := dict_get "id" payload in
  let user_id := dict_get "sub" payload in
  let expiration := dict_get "exp" payload in
  let is_active := dict_get "is_active" payload in
  if negb (truthy user_id) || negb (truthy token_id)
     || negb (truthy expiration) || negb (truthy is_active)
  then raise Invalid_token
  else
    ttl <- lift (remaining_seconds local expiration now) ;;
    _ <- RedisClient.setex now ("token:" +:+ py_str token_id) ttl
           (py_str user_id +:+ ":" +:+ py_str is_active) ;;
    ret user_id.

Definition verify_refresh_token (self : AuthHandler) (tok : token) (now : Z)
    : M unit :=
  payload <- lift (decode_refresh_token self tok now) ;;
  let token_id := dict_get "id" payload in
  if negb (truthy token_id) then raise Invalid_token
  else
    locked <- RedisClient.get now ("token:" +:+ py_str token_id) ;;
    if bytes_truthy locked then raise Token_locked else ret tt.

(** [c = request.cookies.get(name)] followed by [if not c]: the cookie
    when it is present and not the empty string. *)
Definition cookie (request : Request) (name : string) : option token :=
  match cookies request !! name with
  | Some tok => if token_truthy tok then Some tok else None
  | None => None
  end.

Definition auth_user (self : AuthHandler) (request : Request)
    (auth : HTTPAuthorizationCredentials) (now : Z) : M dict :=
  match cookie request "session-token" with
  | None => raise Token_not_found
  | Some tok =>
      _ <- verify_refresh_token self tok now ;;
      lift (decode_access_token self (credentials auth) now)
  end.

(** ** The routes of [src/routes/users.py] *)
Module users.

Record user_doc := UserDoc {
  _id : string;            (* str(ObjectId): 24 hexadecimal digits *)
  name : string;
  password : string;
  admin : bool;
  is_active : bool
}.

Record MongoDb := { users : list user_doc }.

Inductive body :=
| detail (msg : string)
| token_body (t : token).

Record JSONResponse := Response { status_code : N; content : body }.

Definition is_hex (c : ascii) : bool :=
  match c with
  | "0" | "1" | "2" | "3" | "4" | "5" | "6" | "7" | "8" | "9"
  | "a" | "b" | "c" | "d" | "e" | "f"
  | "A" | "B" | "C" | "D" | "E" | "F" => true
  | _ => false
  end%char.

Definition lower_hex (c : ascii) : ascii :=
  match c with
  | "A" => "a" | "B" => "b" | "C" => "c" | "D" => "d" | "E" => "e" | "F" => "f"
  | _ => c
  end%char.

Fixpoint all_hex (s : string) : bool :=
  match s with
  | EmptyString => true
  | String c s' => is_hex c && all_hex s'
  end.

Fixpoint lower (s : string) : string :=
  match s with
  | EmptyString => EmptyString
  | String c s' => String (lower_hex c) (lower s')
  end.

(** [bytes.fromhex(s).hex()]: pairs of hexadecimal digits, with ASCII
    whitespace skipped before a pair; [None] is the [ValueError]. *)
Definition is_space (c : ascii) : bool :=
  let n := N_of_ascii c in
  (n =? 32)%N || ((9 <=? n)%N && (n <=? 13)%N).

Fixpoint fromhex (s : string) : option string :=
  match s with
  | EmptyString => Some EmptyString
  | String c s' =>
      if is_space c then fromhex s'
      else match s' with
           | String d s'' =>
               if is_hex c && is_hex d
               then match fromhex s'' with
                    | Some h => Some (String (lower_hex c) (String (lower_hex d) h))
                    | None => None
                    end
               else None
           | EmptyString => None
           end
  end.

(** [repr(s)] for a string: single quotes unless the string holds a
    single quote and no double quote; the quote and the backslash are
    escaped, and so is every character that is not printable. *)
Definition double_quote : ascii := ascii_of_nat 34.
Definition backslash : ascii := ascii_of_nat 92.

Definition isprintable (c : ascii) : bool :=
  let n := N_of_ascii c in
  (32 <=? n)%N && negb (n =? 127)%N
  && negb ((128 <=? n)%N && (n <=? 160)%N) && negb (n =? 173)%N.

Fixpoint contains (c : ascii) (s : string) : bool :=
  match s with
  | EmptyString => false
  | String d s' => Ascii.eqb c d || contains c s'
  end.

Definition repr_char (quote c : ascii) : string :=
  if Ascii.eqb c quote || Ascii.eqb c backslash
  then String backslash (String c EmptyString)
  else if (N_of_ascii c =? 9)%N then String backslash "t"
  else if (N_of_ascii c =? 10)%N then String backslash "n"
  else if (N_of_ascii c =? 13)%N then String backslash "r"
  else if isprintable c then String c EmptyString
  else String backslash (String "x" (uuid.hex_of 2 (N_of_ascii c) EmptyString)).

Fixpoint repr_chars (quote : ascii) (s : string) : string :=
  match s with
  | EmptyString => EmptyString
  | String c s' => repr_char quote c +:+ repr_chars quote s'
  end.

Definition repr (s : string) : string :=
  let quote := if contains "'" s && negb (contains double_quote s)
               then double_quote else "'"%char in
  String quote (repr_chars quote s +:+ String quote EmptyString).

(** [type(v)] printed. *)
Definition type_str (v : pyval) : string :=
  "<class '" +:+
  match v with
  | VNone => "NoneType" | VBool _ => "bool" | VInt _ => "int" | VStr _ => "str"
  end +:+ "'>".

(** [ObjectId(oid)], identified with the lower-case hexadecimal string
    that [str] gives back.  Both routes call it with a truthy [oid];
    [ObjectId(None)], which draws a fresh id, is not met. *)
Definition ObjectId (oid : pyval) : result string :=
  match oid with
  | VStr s =>
      match (if (String.length s =? 24)%nat then fromhex s else None) with
      | Some h => Return h
      | None =>
          Raise (InvalidId (repr s +:+ " is not a valid ObjectId, it must be a 12-byte input or a 24-character hex string"))
      end
  | _ =>
      Raise (TypeError ("id must be an instance of (bytes, str, ObjectId), not "
                        +:+ type_str oid))
  end.

(** [db.users.find_one({'_id': oid, 'is_active': True}, ...)]. *)
Definition find_one_active (db : MongoDb) (oid : string) : option user_doc :=
  List.find (fun u => String.eqb (_id u) oid && is_active u) (users db).

(** The [try: ... except Exception as e: raise HTTPException(500, ...)]
    that wraps every route body. *)
Definition except_Exception {A} (route : M A) : M A :=
  fun r => match route r with
           | (Raise e, r') =>
               (Raise (HTTPException HTTP_500_INTERNAL_SERVER_ERROR
                         ("Internal server error: " +:+ exn_str e)), r')
           | ok => ok
           end.

Definition user_payload (user : user_doc) : dict :=
  <["is_active" := VBool (is_active user)]>
  (<["admin" := VBool (admin user)]>
  (<["id" := VStr (_id user)]>
  (<["name" := VStr (name user)]> ∅))).

Definition refresh_login_user (auth_handler : AuthHandler) (request : Request)
    (db : MongoDb) (now : Z) (uuid4 : N) : M JSONResponse :=
  except_Exception
    match cookie request "session-token" with
    | None => ret (Response HTTP_403_FORBIDDEN (detail "Unauthorized"))
    | Some refresh_token =>
        payload <- lift (decode_refresh_token auth_handler refresh_token now) ;;
        let user_id := dict_get "sub" payload in
        let token_id := dict_get "id" payload in
        if negb (truthy user_id) || negb (truthy token_id)
        then ret (Response HTTP_403_FORBIDDEN (detail "Unauthorized - bad request"))
        else
          key <- lift (RedisClient.encode_key token_id) ;;
          locked <- RedisClient.get now key ;;
          if bytes_truthy locked
          then ret (Response HTTP_403_FORBIDDEN (detail "Unauthorized - locked list"))
          else
            oid <- lift (ObjectId user_id) ;;
            match find_one_active db oid with
            | None =>
                ret (Response HTTP_403_FORBIDDEN (detail "Unauthorized - invalid user"))
            | Some user =>
                ret (Response HTTP_200_OK
                       (token_body (encode_token auth_handler (user_payload user)
                                      "access_token" now uuid4)))
            end
    end.

(** [response.delete_cookie] acts on the injected response object, which
    is not the [JSONResponse] the route returns; the returned value is
    the status and the body. *)
Definition logout_user (auth_handler : AuthHandler) (local : localtime)
    (request : Request) (db : MongoDb) (now : Z) : M JSONResponse :=
  except_Exception
    match cookie request "session-token" with
    | None => ret (Response HTTP_403_FORBIDDEN (detail "User is already logout"))
    | Some refresh_token =>
        user_id <- lock_refresh_token auth_handler local refresh_token now ;;
        oid <- lift (ObjectId user_id) ;;
        match find_one_active db oid with
        | None =>
            ret (Response HTTP_403_FORBIDDEN (detail "Unauthorized - invalid user"))
        | Some _ =>
            ret (Response HTTP_200_OK (detail "User logout successfully"))
        end
    end.

End users.

(** ** Vocabulary of the statements *)

(** The claims carried by a token string. *)
Definition claims_of (tok : token) : dict :=
  match tok with
  | jwt.Jws _ c => c
  | jwt.Raw _ => ∅
  end.

(** The test of the login-time sweep: the live value stored under [k]
    starts with "subject:". *)
Definition references (now : Z) (subject : string) (r : Redis.db) (k : string)
    : bool :=
  bytes_truthy (Redis.lookup_live now k r)
  && startswith (default "" (Redis.lookup_live now k r)) (subject +:+ ":").

(** The body of the [for key in scan_iter(...)] loop of
    [encode_login_token]. *)
Definition sweep_body (now : Z) (subject : string) (key : string) : M unit :=
  value <- RedisClient.get now key ;;
  if bytes_truthy value && startswith (default "" value) (subject +:+ ":")
  then RedisClient.delete key
  else ret tt.

(** The request of a client that presents [tok] as its session cookie. *)
Definition with_session (tok : token) : Request :=
  {| cookies := {["session-token" := tok]} |}.

Definition bearer (tok : token) : HTTPAuthorizationCredentials :=
  {| credentials := tok |}.

(** The four claims [lock_refresh_token] insists on. *)
Definition lockable (p : dict) : bool :=
  truthy (dict_get "sub" p) && truthy (dict_get "id" p)
  && truthy (dict_get "exp" p) && truthy (dict_get "is_active" p).

(** The key and the value of the revocation marker of a session token
    with claims [p]. *)
Definition marker_key (p : dict) : string := "token:" +:+ py_str (dict_get "id" p).

Definition marker_value (p : dict) : string :=
  py_str (dict_get "sub" p) +:+ ":" +:+ py_str (dict_get "is_active" p).

(** ** A running scenario

    Alice and Bob are active users, Carol has been deactivated.  Alice
    logs in at [t_login] and logs out ten minutes later. *)
Module scenario.

Definition auth_handler : AuthHandler := {| secret := "jwt-secret-key" |}.

Definition alice : users.user_doc :=
  users.UserDoc "64b7f3a2c1d4e5f6a7b8c9d0" "alice" "$2b$12$alice" false true.
Definition bob : users.user_doc :=
  users.UserDoc "64b7f3a2c1d4e5f6a7b8c9d1" "bob" "$2b$12$bob" true true.
Definition carol : users.user_doc :=
  users.UserDoc "64b7f3a2c1d4e5f6a7b8c9d2" "carol" "$2b$12$carol" false false.

Definition mongo : users.MongoDb := {| users.users := [alice; bob; carol] |}.

Definition empty_store : Redis.db := Redis.Db None ∅.
Definition unreachable_store : Redis.db :=
  Redis.Db (Some "Error 111 connecting to redis:6379. Connection refused.") ∅.

Definition t_login : Z := 1700000000500000.
Definition t_logout : Z := 1700000600250000.
Definition t_relogin : Z := 1700000700000000.
Definition t_check : Z := 1700000800000000.

Definition alice_access : token :=
  encode_token auth_handler (users.user_payload alice) "access_token" t_login 7.
Definition alice_session : token :=
  encode_token auth_handler (users.user_payload alice) "refresh_token" t_login 8.

(** The store after Alice's logout: one marker for her session token,
    living for the 2591399 whole seconds the token had left. *)
Definition revoked_store : Redis.db :=
  Redis.Db None
    {[ "token:00000000000000000000000000000008" :=
         Redis.Entry "64b7f3a2c1d4e5f6a7b8c9d0:True" 1702591999250000 ]}.

(** A marker of Bob's next to Alice's. *)
Definition bob_marker : Redis.entry :=
  Redis.Entry "64b7f3a2c1d4e5f6a7b8c9d1:True" 1702000000000000.
Definition shared_store : Redis.db :=
  Redis.Db None
    (<["token:000000000000000000000000000000b0" := bob_marker]>
       (Redis.data revoked_store)).

(** An authorization token Alice obtains shortly before her session
    token expires. *)
Definition late_access : token :=
  encode_token auth_handler (users.user_payload alice) "access_token"
    1702591000000000 13.

(** A session token signed for the deactivated Carol. *)
Definition carol_session : token :=
  encode_token auth_handler (users.user_payload carol) "refresh_token" t_login 9.

(** A token signed with the secret that carries [sub] and nothing else. *)
Definition bare_token : token :=
  jwt.encode {[ "sub" := VStr "64b7f3a2c1d4e5f6a7b8c9d0" ]} (secret auth_handler).

(** A signed session token without a [sub] claim. *)
Definition anonymous_session : token :=
  jwt.encode (<["refresh" := VBool true]> {[ "exp" := VInt 1702592000 ]})
    (secret auth_handler).

(** What CPython on Linux raises for a local time outside the years 1
    to 9999: the year is named while it still fits the C calendar. *)
Definition year_out_of_range (wall : Z) : exn :=
  if (datetime_max <? wall)%Z && (wall <? 253433923200000000)%Z
  then ValueError_ "year 10000 is out of range"
  else if (-62167219200000000 <=? wall)%Z && (wall <? datetime_min)%Z
  then ValueError_ "year 0 is out of range"
  else OverflowError "timestamp out of range for platform time_t".

(** A server whose local time is UTC. *)
Definition utc : localtime := Localtime (fun _ => 0%Z) year_out_of_range.

(** A server on Paris time, for instants of the year 2024: one hour
    ahead of UTC, two hours between 31 March and 27 October, 01:00 UTC. *)
Definition paris_offset (t : Z) : Z :=
  if (1711846800000000 <=? t)%Z && (t <? 1729990800000000)%Z
  then 7200000000%Z else 3600000000%Z.
Definition paris : localtime :=
  Localtime paris_offset (fun t => year_out_of_range (t + paris_offset t)).

(** Alice's sessions of March and of October 2024; each spans a change
    of the Paris offset. *)
Definition t_march : Z := 1711000000250000.
Definition t_october : Z := 1729000000250000.
Definition march_session : token :=
  encode_token auth_handler (users.user_payload alice) "refresh_token" t_march 14.
Definition october_session : token :=
  encode_token auth_handler (users.user_payload alice) "refresh_token" t_october 15.

(** The store after Alice logs out of her October session ten minutes
    after logging in, on Paris time. *)
Definition t_october_logout : Z := 1729000600250000.
Definition october_store : Redis.db :=
  Redis.Db None
    {[ "token:0000000000000000000000000000000f" :=
         Redis.Entry "64b7f3a2c1d4e5f6a7b8c9d0:True" 1731588399250000 ]}.

(** An authorization token Alice obtains in the last hour of her October
    session. *)
Definition october_access : token :=
  encode_token auth_handler (users.user_payload alice) "access_token"
    1731590000000000 16.

(** Alice's session token with its [exp] moved to the first second of
    the year 10000. *)
Definition millennial_session : token :=
  jwt.encode (<["exp" := VInt 253402300800]> (claims_of alice_session))
    (secret auth_handler).

End scenario.

(** * The code around the authentication core

    The rest of [src/authentication/main.py] and [src/routes/users.py],
    and the helpers of [src/utils.py], [src/schemas/main.py],
    [src/routes/config.py] and [src/routes/enrollment.py] that are pure
    or only use what is modelled above.  A Python string is a sequence of
    code points; the code points below 256 are the characters of this
    model. *)

(** ** Python strings *)
Module pystr.

(** [len(s)] is [String.length]; [s[i:]] and [s[:j]] for indices that
    are not negative. *)
Fixpoint drop (i : nat) (s : string) : string :=
  match i, s with
  | O, _ => s
  | S i', String _ s' => drop i' s'
  | S _, EmptyString => EmptyString
  end.

Fixpoint take (j : nat) (s : string) : string :=
  match j, s with
  | S j', String c s' => String c (take j' s')
  | _, _ => EmptyString
  end.

(** [s[i:j]]. *)
Definition slice (i j : nat) (s : string) : string := take (j - i) (drop i s).

(** The decimal digits, [\d] of [re]: below 256 these are "0" to "9". *)
Definition is_decimal (c : ascii) : bool :=
  match c with
  | "0" | "1" | "2" | "3" | "4" | "5" | "6" | "7" | "8" | "9" => true
  | _ => false
  end%char.

(** The characters [str.isdigit] accepts: the decimal digits and the
    superscript digits two, three and one (U+00B2, U+00B3, U+00B9). *)
Definition isdigit_char (c : ascii) : bool :=
  is_decimal c
  || Ascii.eqb c (ascii_of_nat 178) || Ascii.eqb c (ascii_of_nat 179)
  || Ascii.eqb c (ascii_of_nat 185).

Fixpoint all_chars (f : ascii → bool) (s : string) : bool :=
  match s with
  | EmptyString => true
  | String c s' => f c && all_chars f s'
  end.

(** [s.isdigit()]: every character is a digit and there is at least one. *)
Definition isdigit (s : string) : bool :=
  match s with
  | EmptyString => false
  | _ => all_chars isdigit_char s
  end.

(** [re.sub(r'\D', '', s)]. *)
Fixpoint remove_non_decimal (s : string) : string :=
  match s with
  | EmptyString => EmptyString
  | String c s' =>
      if is_decimal c then String c (remove_non_decimal s') else remove_non_decimal s'
  end.

(** [s.split(sep)] for a separator of one character. *)
Fixpoint split (sep : ascii) (s : string) : list string :=
  match s with
  | EmptyString => [EmptyString]
  | String c s' =>
      if Ascii.eqb c sep then EmptyString :: split sep s'
      else match split sep s' with
           | h :: t => String c h :: t
           | [] => [String c EmptyString]
           end
  end.

End pystr.

(** Functions that raise nothing but [ValueError]. *)
Inductive checked (A : Type) :=
| Valid (a : A)
| ValueError (msg : string).
Arguments Valid {A} a.
Arguments ValueError {A} msg.

(** ** [src/utils.py] *)
Module utils.

Definition adjust_cpf (cpf : string) : checked string :=
  let adjusted_cpf := pystr.slice 3 9 (pystr.remove_non_decimal cpf) in
  if negb (String.length adjusted_cpf =? 6)%nat || negb (String.length cpf =? 14)%nat
  then ValueError
         "Invalid CPF, CPF must have the format XXX.XXX.XXX-XX, where X is a digit"
  else Valid adjusted_cpf.

(** The keyword arguments a decorated route is called with: the claims
    FastAPI injects as [user_data], when the route declares them, and the
    other arguments. *)
Record kwargs (A : Type) := Kwargs { user_data : option dict; others : A }.
Arguments Kwargs {A} user_data others.
Arguments user_data {A} k.
Arguments others {A} k.

Definition Unauthorized : users.JSONResponse :=
  users.Response HTTP_403_FORBIDDEN (users.detail "Unauthorized").

(** The decorators return either their own 403 response or whatever the
    route returns. *)
Definition require_active_user {A R} (func : kwargs A → M R)
    : kwargs A → M (users.JSONResponse + R) :=
  fun kw =>
    let user_data := default (∅ : dict) (user_data kw) in
    if negb (truthy (dict_get "is_active" user_data))
    then ret (inl Unauthorized)
    else r <- func kw ;; ret (inr r).

Definition require_admin_active {A R} (func : kwargs A → M R)
    : kwargs A → M (users.JSONResponse + R) :=
  fun kw =>
    let user_data := default (∅ : dict) (user_data kw) in
    if negb (truthy (dict_get "is_active" user_data)
             && truthy (dict_get "admin" user_data))
    then ret (inl Unauthorized)
    else r <- func kw ;; ret (inr r).

End utils.

(** How FastAPI calls a route that declares
    [user_data=Depends(auth_handler.auth_user)]: the dependency runs
    first, what it raises ends the request, and what it returns is passed
    to the (decorated) route as the keyword argument [user_data]. *)
Definition Depends_auth_user {A R} (auth_handler : AuthHandler)
    (route : utils.kwargs A → M R) (request : Request)
    (auth : HTTPAuthorizationCredentials) (args : A) (now : Z) : M R :=
  user_data <- auth_user auth_handler request auth now ;;
  route (utils.Kwargs (Some user_data) args).

(** ** [src/schemas/main.py] *)
Module schemas.

Definition validate_semester_format (semester : string) : checked string :=
  match pystr.split "." semester with
  | [year; semester_num] =>
      if negb (pystr.isdigit year) || negb (String.length year =? 4)%nat
      then ValueError "O ano deve conter exatamente 4 dígitos"
      else if startswith year "0"
      then ValueError "O ano não pode começar com zero"
      else if negb (pystr.isdigit semester_num)
              || negb (String.length semester_num =? 1)%nat
              || String.eqb semester_num "0"
      then ValueError "O semestre deve ser um único dígito de 1 a 9"
      else Valid semester
  | _ => ValueError "O formato do semestre deve ser XXXX.X (exemplo: 2024.1)"
  end.

(** The regular expressions of the file are sequences of single
    characters and [\d], anchored at both ends. *)
Inductive atom :=
| Digit
| Char (c : ascii).

Fixpoint match_atoms (pattern : list atom) (s : string) : option string :=
  match pattern with
  | [] => Some s
  | a :: pattern' =>
      match s with
      | EmptyString => None
      | String c s' =>
          if match a with
             | Digit => pystr.is_decimal c
             | Char d => Ascii.eqb c d
             end
          then match_atoms pattern' s'
          else None
      end
  end.

(** [$] without [re.MULTILINE]: the end of the string, or the newline
    that ends the string. *)
Definition at_end (rest : string) : bool :=
  match rest with
  | EmptyString => true
  | String c EmptyString => Ascii.eqb c (ascii_of_nat 10)
  | _ => false
  end.

(** [re.match(r'^\d{4}\.\d$', v)] as a truth value. *)
Definition semester_re : list atom := [Digit; Digit; Digit; Digit; Char "."; Digit].

Definition re_match (pattern : list atom) (v : string) : bool :=
  match match_atoms pattern v with
  | Some rest => at_end rest
  | None => false
  end.

Definition Invalid_semester_format : string :=
  "Invalid semester format. Use YYYY.P format (e.g., 2024.1)".

(** [EnrollmentUpdateFormData.validate_semester], for [semester] and
    the optional [new_semestre]. *)
Definition update_validate_semester (v : option string) : checked (option string) :=
  match v with
  | Some (String c s) =>
      if negb (re_match semester_re (String c s))
      then ValueError Invalid_semester_format
      else Valid v
  | _ => Valid v
  end.

(** [EnrollmentDeleteFormData.validate_semester]. *)
Definition delete_validate_semester (v : string) : checked string :=
  if negb (re_match semester_re v) then ValueError Invalid_semester_format
  else Valid v.

(** The [validate_cpf] of the three enrollment forms: [adjust_cpf], its
    error re-raised with the same message. *)
Definition validate_cpf (v : string) : checked string :=
  match utils.adjust_cpf v with
  | Valid cpf => Valid cpf
  | ValueError msg => ValueError msg
  end.

End schemas.

(** ** [src/routes/enrollment.py] *)
Module enrollment.

(** [f'000.{data.cpf[:3]}.{data.cpf[3:]}-00'], the CPF that
    [create_enrollment] and [update_enrollment] pass on to
    [get_entry_info_by_name_cpf_course], which adjusts it again. *)
Definition cpf_to_pass (cpf : string) : string :=
  "000." +:+ pystr.slice 0 3 cpf +:+ "." +:+ pystr.drop 3 cpf +:+ "-00".

End enrollment.

(** ** [src/routes/config.py] *)
Module config.

(** A [datetime]: the microseconds its wall clock shows, counted from
    1970-01-01 00:00 on that clock, and the UTC offset of its [tzinfo],
    if it has one.  Wall clocks range from year 1 to year 9999. *)
Record datetime := Datetime { wall : Z; tzinfo : option Z }.

Definition MIN : Z := (-62135596800000000)%Z.
Definition MAX : Z := 253402300799999999%Z.

Definition in_range (w : Z) : bool := ((MIN <=? w) && (w <=? MAX))%Z.

Inductive raised :=
| ValueError_ (msg : string)
| OverflowError (msg : string).

Inductive outcome (A : Type) :=
| Done (a : A)
| Raised (e : raised).
Arguments Done {A} a.
Arguments Raised {A} e.

(** [dt + timedelta(microseconds=delta)]; the [tzinfo] is kept. *)
Definition add (dt : datetime) (delta : Z) : outcome datetime :=
  if in_range (wall dt + delta)
  then Done (Datetime (wall dt + delta) (tzinfo dt))
  else Raised (OverflowError "date value out of range").

Definition to_utc (dt : datetime) : outcome datetime :=
  match tzinfo dt with
  | None => Done (Datetime (wall dt) (Some 0%Z))
  | Some offset =>
      (* dt.astimezone(timezone.utc) *)
      match add dt (- offset) with
      | Done utc => Done (Datetime (wall utc) (Some 0%Z))
      | Raised e => Raised e
      end
  end.

Section validate_dates.
(** [dt.strftime("%d/%m/%Y %H:%M")]. *)
Variable strftime : datetime → string.

Definition validate_dates (start_date end_date : datetime) : outcome unit :=
  match to_utc start_date with
  | Raised e => Raised e
  | Done start_date =>
      match to_utc end_date with
      | Raised e => Raised e
      | Done end_date =>
          if (wall end_date <=? wall start_date)%Z
          then Raised (ValueError_
                 ("A data de início (" +:+ strftime start_date +:+ ") "
                  +:+ "deve ser anterior à data de término ("
                  +:+ strftime end_date +:+ ")"))
          else
            match add start_date (hours 1) with
            | Raised e => Raised e
            | Done min_end_date =>
                if (wall end_date <? wall min_end_date)%Z
                then Raised (ValueError_
                       ("A data de término (" +:+ strftime end_date +:+ ") "
                        +:+ "deve ser pelo menos 1 hora após a data de início ("
                        +:+ strftime start_date +:+ ")"))
                else Done tt
            end
      end
  end.

End validate_dates.

End config.

(** ** [AuthHandler.verify_password] and the login route *)
Module login.

Section login.
(** [bcrypt.checkpw] on the encoded password and hash; it raises on a
    malformed hash. *)
Variable checkpw : string → string → result bool.

(** The result is also stored in [self.pwd_context], which nothing
    reads. *)
Definition verify_password (self : AuthHandler) (plain_password hashed_password : string)
    : result bool :=
  checkpw plain_password hashed_password.

Record UserLoginFormData := { name : string; password : string }.

(** What the client receives: a status, a body and, when the route set
    it on the injected response, the [session-token] cookie. *)
Record reply := Reply {
  status_code : N;
  content : users.body;
  set_cookie : option token
}.

Definition HTTP_201_CREATED : N := 201.

Definition find_one_by_name (db : users.MongoDb) (n : string) : option users.user_doc :=
  List.find (fun u => String.eqb (users.name u) n && users.is_active u)
            (users.users db).

Definition login_user (auth_handler : AuthHandler) (data : UserLoginFormData)
    (db : users.MongoDb) (now : Z) (uuid_a uuid_r : N) : M reply :=
  users.except_Exception
    match find_one_by_name db (name data) with
    | None =>
        ret (Reply HTTP_401_UNAUTHORIZED (users.detail "User not found") None)
    | Some user =>
        ok <- lift (verify_password auth_handler (password data) (users.password user)) ;;
        if negb ok
        then ret (Reply HTTP_401_UNAUTHORIZED
                    (users.detail "Username or password not valid") None)
        else
          let payload := users.user_payload user in
          tokens <- encode_login_token auth_handler payload now uuid_a uuid_r ;;
          let '(access_token, refresh_token) := tokens in
          ret (Reply HTTP_201_CREATED (users.token_body access_token)
                 (Some refresh_token))
    end.

End login.

End login.

(** ** More of the running scenario *)
Module scenario_login.

(** A stand-in for bcrypt: the hash of a password is the password after
    a fixed prefix. *)
Definition checkpw (plain hashed : string) : result bool :=
  Return (String.eqb ("$2b$12$" +:+ plain) hashed).

Definition alice_form : login.UserLoginFormData :=
  {| login.name := "alice"; login.password := "alice" |}.
Definition alice_typo : login.UserLoginFormData :=
  {| login.name := "alice"; login.password := "alicia" |}.
Definition carol_form : login.UserLoginFormData :=
  {| login.name := "carol"; login.password := "carol" |}.

Definition bob_access : token :=
  encode_token scenario.auth_handler (users.user_payload scenario.bob)
    "access_token" scenario.t_login 20.
Definition bob_session : token :=
  encode_token scenario.auth_handler (users.user_payload scenario.bob)
    "refresh_token" scenario.t_login 21.

(** A token signed by somebody else. *)
Definition forged_session : token :=
  encode_token {| secret := "guess" |} (users.user_payload scenario.alice)
    "refresh_token" scenario.t_login 8.

Definition utc_noon : config.datetime := config.Datetime 1700049600000000 None.
Definition paris_two_pm : config.datetime :=
  config.Datetime 1700056800000000 (Some 3600000000%Z).

Definition strftime (dt : config.datetime) : string := "--/--/---- --:--".

Definition newline : string := String (ascii_of_nat 10) "".

(** A route that only reports that it ran. *)
Definition ran (kw : utils.kwargs unit) : M string := ret "ran".

End scenario_login.

(** The instant a datetime denotes, a naive one read as UTC. *)
Definition instant (dt : config.datetime) : Z :=
  (config.wall dt - default 0%Z (config.tzinfo dt))%Z.

(** * Properties *)

Local Open Scope Z_scope.

(** ** The decoders *)
Section decoders.
Context (self : AuthHandler).

Lemma decode_signed (p : dict) (now : Z) :
  jwt.decode (jwt.encode p (secret self)) (secret self) now =
  match p !! "exp" with
  | None => Return p
  | Some (VInt exp) =>
      if exp * jwt.usec <=? now then Raise ExpiredSignatureError else Return p
  | Some _ =>
      Raise (InvalidTokenError "Expiration Time claim (exp) must be an integer.")
  end.
Proof. unfold jwt.encode, jwt.decode. by rewrite String.eqb_refl. Qed.

(** What [jwt.decode] returns is the signed payload itself, and its
    [exp] claim, when there is one, lies strictly in the future. *)
Lemma decode_Return_inv (tok : token) (now : Z) (p : dict) :
  jwt.decode tok (secret self) now = Return p →
  tok = jwt.Jws (secret self) p ∧
  (p !! "exp" = None ∨ ∃ exp, p !! "exp" = Some (VInt exp) ∧ now < exp * jwt.usec).
Proof.
  destruct tok as [raw|k q]; simpl; [done|].
  destruct (String.eqb k (secret self)) eqn:Hk; simpl; [|done].
  apply String.eqb_eq in Hk as ->.
  destruct (q !! "exp") as [[| |exp|]|] eqn:Hexp; try done.
  - destruct (Z.leb_spec (exp * jwt.usec) now); [done|].
    intros [= <-]. split; [done|]. right. by exists exp.
  - intros [= <-]. split; [done|]. by left.
Qed.

Lemma dict_in_false (k : string) (p : dict) : p !! k = None → dict_in k p = false.
Proof.
  intros H. unfold dict_in. apply bool_decide_eq_false_2.
  rewrite H. by intros [? ?].
Qed.

Lemma dict_in_true (k : string) (p : dict) (v : pyval) :
  p !! k = Some v → dict_in k p = true.
Proof. intros H. unfold dict_in. apply bool_decide_eq_true_2. by rewrite H. Qed.

(** The refresh decoder accepts exactly the decodable payloads that
    carry [sub] and a [refresh] claim that does not equal [False]. *)
Lemma decode_refresh_token_Return_inv (tok : token) (now : Z) (p : dict) :
  decode_refresh_token self tok now = Return p →
  jwt.decode tok (secret self) now = Return p ∧
  is_Some (p !! "sub") ∧
  ∃ r, p !! "refresh" = Some r ∧ py_eq r (VBool false) = false.
Proof.
  unfold decode_refresh_token.
  destruct (jwt.decode tok (secret self) now) as [q|[]] eqn:Hd; simpl; try done.
  unfold dict_in, subscript. case_bool_decide as Hsub; simpl; [|done].
  destruct (q !! "refresh") as [r|] eqn:Hr; simpl; [|done].
  destruct (py_eq r (VBool false)) eqn:Hk; simpl; [done|].
  intros [= <-]. eauto.
Qed.

Lemma decode_refresh_token_session (p : dict) (now : Z) (sub r : pyval) :
  jwt.decode (jwt.Jws (secret self) p) (secret self) now = Return p →
  p !! "sub" = Some sub → p !! "refresh" = Some r →
  py_eq r (VBool false) = false →
  decode_refresh_token self (jwt.Jws (secret self) p) now = Return p.
Proof.
  intros Hd Hsub Hr Hk. unfold decode_refresh_token. rewrite Hd. simpl.
  rewrite (dict_in_true _ _ _ Hsub). simpl.
  unfold subscript. rewrite Hr. simpl. by rewrite Hk.
Qed.

Lemma decode_access_token_bearer (p : dict) (now : Z) (sub r : pyval) :
  jwt.decode (jwt.Jws (secret self) p) (secret self) now = Return p →
  p !! "sub" = Some sub → p !! "refresh" = Some r →
  py_eq r (VBool true) = false →
  decode_access_token self (jwt.Jws (secret self) p) now = Return p.
Proof.
  intros Hd Hsub Hr Hk. unfold decode_access_token. rewrite Hd. simpl.
  rewrite (dict_in_true _ _ _ Hsub). simpl.
  unfold subscript. rewrite Hr. simpl. by rewrite Hk.
Qed.

Lemma decode_access_token_no_sub (p : dict) (now : Z) :
  jwt.decode (jwt.encode p (secret self)) (secret self) now = Return p →
  p !! "sub" = None →
  decode_access_token self (jwt.encode p (secret self)) now = Raise Invalid_token.
Proof.
  intros Hd Hsub. unfold decode_access_token.
  rewrite Hd. simpl. by rewrite (dict_in_false _ _ Hsub).
Qed.

Lemma decode_refresh_token_no_sub (p : dict) (now : Z) :
  jwt.decode (jwt.encode p (secret self)) (secret self) now = Return p →
  p !! "sub" = None →
  decode_refresh_token self (jwt.encode p (secret self)) now = Raise Invalid_token.
Proof.
  intros Hd Hsub. unfold decode_refresh_token.
  rewrite Hd. simpl. by rewrite (dict_in_false _ _ Hsub).
Qed.

(** C7: a validly signed, unexpired token whose payload has no [sub]
    claim is refused with "Invalid token" by [decode_access_token] and
    by [decode_refresh_token] alike; the valid signature does not make
    it acceptable. *)
Theorem missing_subject_is_invalid (p : dict) (now : Z) :
  jwt.decode (jwt.encode p (secret self)) (secret self) now = Return p →
  p !! "sub" = None →
  decode_access_token self (jwt.encode p (secret self)) now = Raise Invalid_token ∧
  decode_refresh_token self (jwt.encode p (secret self)) now = Raise Invalid_token.
Proof.
  intros Hd Hsub. split.
  - by apply decode_access_token_no_sub.
  - by apply decode_refresh_token_no_sub.
Qed.

(** C8: a signed token decoded at its [exp] instant or at any later
    time fails with "Signature has expired", whatever its other claims
    are: the boundary is exclusive. *)
Theorem expired_from_exp_onwards (p : dict) (exp now : Z) :
  p !! "exp" = Some (VInt exp) →
  exp * jwt.usec ≤ now →
  decode_access_token self (jwt.encode p (secret self)) now
    = Raise Signature_has_expired ∧
  decode_refresh_token self (jwt.encode p (secret self)) now
    = Raise Signature_has_expired.
Proof.
  intros Hexp Hnow. unfold decode_access_token, decode_refresh_token.
  rewrite decode_signed, Hexp.
  by destruct (Z.leb_spec (exp * jwt.usec) now); [|lia].
Qed.

(** The kind is read with [payload['refresh']]: a decodable payload that
    has [sub] but no [refresh] claim makes both decoders raise
    [KeyError]. *)
Lemma decoders_without_refresh (p : dict) (now : Z) (sub : pyval) :
  jwt.decode (jwt.encode p (secret self)) (secret self) now = Return p →
  p !! "sub" = Some sub → p !! "refresh" = None →
  decode_access_token self (jwt.encode p (secret self)) now
    = Raise (KeyError "refresh") ∧
  decode_refresh_token self (jwt.encode p (secret self)) now
    = Raise (KeyError "refresh").
Proof.
  intros Hd Hsub Hr. unfold decode_access_token, decode_refresh_token.
  rewrite Hd. simpl. rewrite (dict_in_true _ _ _ Hsub). simpl.
  unfold subscript. by rewrite Hr.
Qed.

End decoders.

(** ** The Redis client and the login-time sweep *)
Section sweep.

Lemma lookup_live_ext now k r r' :
Redis.data r' !! k = Redis.data r !! k →
Redis.lookup_live now k r' = Redis.lookup_live now k r.
Proof. unfold Redis.lookup_live. by intros ->. Qed.

Lemma sweep_body_run now subject key (r : Redis.db) :
Redis.outage r = None →
sweep_body now subject key r =
  (Return tt,
   if references now subject r key
   then Redis.Db None (delete key (Redis.data r)) else r).
Proof.
intros Hout. unfold sweep_body, bind, RedisClient.get, RedisClient.guard.
rewrite Hout. fold (references now subject r key).
destruct (references now subject r key); [|done].
unfold RedisClient.delete, RedisClient.guard. by rewrite Hout.
Qed.

Lemma sweep_loop now subject (keys : list string) : ∀ r : Redis.db,
Redis.outage r = None →
∃ r', for_each keys (sweep_body now subject) r = (Return tt, r') ∧
      Redis.outage r' = None ∧
      ∀ k, Redis.data r' !! k =
           if bool_decide (k ∈ keys) && references now subject r k
           then None else Redis.data r !! k.
Proof.
induction keys as [|x keys IH]; intros r Hout.
- exists r. by repeat split.
- simpl. unfold bind at 1. rewrite sweep_body_run by done.
  set (r1 := if references now subject r x then _ else r).
  assert (Redis.outage r1 = None) as Hout1.
  { subst r1. by destruct (references now subject r x). }
  destruct (IH r1 Hout1) as (r' & -> & Hout' & Hdata).
  exists r'. repeat split; [done|]. intros k. rewrite Hdata.
  destruct (decide (k = x)) as [->|Hne].
  + rewrite (bool_decide_eq_true_2 (x ∈ x :: keys)) by apply list_elem_of_here.
    simpl. subst r1. destruct (references now subject r x) eqn:Href.
    * simpl. rewrite lookup_delete_eq.
      unfold references, Redis.lookup_live. simpl. rewrite lookup_delete_eq.
      simpl. by rewrite andb_false_r.
    * by rewrite Href, andb_false_r.
  + assert (Redis.data r1 !! k = Redis.data r !! k) as Hk.
    { subst r1. destruct (references now subject r x); [|done].
      simpl. by rewrite lookup_delete_ne. }
    assert (references now subject r1 k = references now subject r k) as ->.
    { unfold references. by rewrite (lookup_live_ext _ _ _ _ Hk). }
    rewrite Hk. 
    assert (bool_decide (k ∈ x :: keys) = bool_decide (k ∈ keys)) as ->; [|done].
    apply bool_decide_ext. rewrite elem_of_cons.
    split; [by intros [?|?]|by right].
Qed.

Lemma scan_iter_run now pattern (r : Redis.db) :
Redis.outage r = None →
∃ keys, RedisClient.scan_iter now pattern r = (Return keys, r) ∧
  ∀ k, k ∈ keys ↔ Redis.glob pattern k = true ∧ is_Some (Redis.lookup_live now k r).
Proof.
intros Hout. unfold RedisClient.scan_iter, RedisClient.guard. rewrite Hout.
eexists. split; [done|]. intros k.
rewrite list_elem_of_filter, list_elem_of_fmap. split.
- intros [Hp _]. apply andb_prop_elim in Hp as [Hg Hl].
  split; [by apply Is_true_true|]. by apply bool_decide_unpack in Hl.
- intros [Hg [v Hl]]. split.
  + apply andb_prop_intro. split; [by apply Is_true_true|].
    apply bool_decide_pack. by exists v.
  + unfold Redis.lookup_live in Hl.
    destruct (Redis.data r !! k) as [e|] eqn:He; [|done].
    exists (k, e). split; [done|]. by apply elem_of_map_to_list.
Qed.

Lemma references_live now subject r k :
references now subject r k = true → is_Some (Redis.lookup_live now k r).
Proof.
unfold references. destruct (Redis.lookup_live now k r); [eauto|done].
Qed.

(** What [encode_login_token] returns and does to a reachable store. *)
Lemma encode_login_token_run self user_data now ua ur (r : Redis.db) :
Redis.outage r = None →
∃ r', encode_login_token self user_data now ua ur r =
        (Return (encode_token self user_data "access_token" now ua,
                 encode_token self user_data "refresh_token" now ur), r') ∧
      Redis.outage r' = None ∧
      ∀ k, Redis.data r' !! k =
           if Redis.glob "token:*" k
              && references now (py_str (dict_get "id" user_data)) r k
           then None else Redis.data r !! k.
Proof.
intros Hout. unfold encode_login_token.
destruct (scan_iter_run now "token:*" r Hout) as (keys & Hscan & Hkeys).
unfold bind at 1. rewrite Hscan.
change (for_each keys _) with
  (for_each keys (sweep_body now (py_str (dict_get "id" user_data)))).
destruct (sweep_loop now (py_str (dict_get "id" user_data)) keys r Hout)
  as (r' & Hloop & Hout' & Hdata).
unfold bind. rewrite Hloop. exists r'. repeat split; [done|].
intros k. rewrite Hdata.
destruct (references now _ r k) eqn:Href; [|by rewrite !andb_false_r].
rewrite !andb_true_r. 
destruct (Redis.glob "token:*" k) eqn:Hg.
- rewrite bool_decide_eq_true_2; [done|]. apply Hkeys. split; [done|].
  by eapply references_live.
- rewrite bool_decide_eq_false_2; [done|]. intros [? _]%Hkeys. congruence.
Qed.

End sweep.

(** ** Whole seconds of a timedelta *)
Section timedelta.

Lemma round_half_even_cases (n d : Z) :
  0 < d →
  round_half_even n d = n / d ∨
  (round_half_even n d = n / d + 1 ∧ d ≤ 2 * (n mod d)).
Proof.
  intros Hd. unfold round_half_even.
  destruct (Z.ltb_spec (2 * (n mod d)) d); [by left|].
  destruct (Z.ltb_spec d (2 * (n mod d))); [right; lia|].
  destruct (Z.even (n / d)); [by left|right; lia].
Qed.

(** Rounding a quotient that was scaled by more than half the divisor
    never reaches the next whole number. *)
Lemma round_scaled_quotient (a d P : Z) :
  0 ≤ a → 0 < d → 0 < P → d < 2 * P →
  round_half_even (a * P) d / P = a / d.
Proof.
  intros Ha Hd HP HdP.
  pose proof (Z.div_mod a d ltac:(lia)) as Ea.
  pose proof (Z.mod_pos_bound a d Hd) as Hr.
  pose proof (Z.div_mod (a * P) d ltac:(lia)) as EN.
  pose proof (Z.mod_pos_bound (a * P) d Hd) as Hu.
  set (k := a / d) in *. set (r := a mod d) in *.
  set (T := (a * P) / d) in *. set (u := (a * P) mod d) in *.
  assert (a * P = d * (k * P) + r * P) as EaP by (rewrite Ea at 1; ring).
  assert (k * P ≤ T) as Hlo by nia.
  assert (T ≤ k * P + P - 1) as Hhi by nia.
  symmetry.
  apply (Z.div_unique_pos _ P k (round_half_even (a * P) d - k * P)); [|ring].
  destruct (round_half_even_cases (a * P) d Hd) as [->|[-> Hup]]; fold T; [lia|].
  fold u in Hup. split; [lia|].
  destruct (Z.eq_dec T (k * P + P - 1)) as [HT|]; [|lia].
  assert (u = d - (d - r) * P) by nia. nia.
Qed.

Lemma round_half_even_nonneg (n d : Z) : 0 ≤ n → 0 < d → 0 ≤ round_half_even n d.
Proof.
  intros Hn Hd. pose proof (Z.div_pos n d Hn Hd).
  destruct (round_half_even_cases n d Hd) as [->|[-> _]]; lia.
Qed.

Lemma int_true_divide_nonneg (a : Z) : 0 ≤ a → 0 ≤ int_true_divide a jwt.usec.
Proof.
  intros Ha. unfold int_true_divide.
  destruct (a =? 0); [done|]. cbv zeta.
  match goal with |- context [0 <=? ?s] => destruct (Z.leb_spec 0 s) end.
  - apply Z.div_pos; [|by apply Z.pow_pos_nonneg].
    apply round_half_even_nonneg; [|done].
    apply Z.mul_nonneg_nonneg; [done|]. by apply Z.pow_nonneg.
  - apply Z.mul_nonneg_nonneg; [|by apply Z.pow_nonneg].
    apply round_half_even_nonneg; [done|].
    apply Z.mul_pos_pos; [done|]. apply Z.pow_pos_nonneg; lia.
Qed.

Lemma int_true_divide_exact (a : Z) :
  0 ≤ a → a < exact_span → int_true_divide a jwt.usec = a / jwt.usec.
Proof.
  intros Ha Hlt. unfold int_true_divide.
  destruct (Z.eqb_spec a 0) as [->|Hne]; [done|].
  change (Z.log2 jwt.usec) with 19.
  assert (Z.log2 a < 54) as Hlog.
  { apply Z.log2_lt_pow2; [lia|]. unfold exact_span in Hlt.
    change (2 ^ 54) with 18014398509481984. lia. }
  pose proof (Z.log2_nonneg a) as Hl0.
  set (b0 := Z.log2 a - 19).
  set (b := if a * 2 ^ Z.max 0 (- b0) <? jwt.usec * 2 ^ Z.max 0 b0
            then b0 - 1 else b0).
  assert (b0 ≤ 34) as Hb0 by (subst b0; lia).
  assert (b ≤ 33) as Hb.
  { subst b.
    destruct (Z.ltb_spec (a * 2 ^ Z.max 0 (- b0)) (jwt.usec * 2 ^ Z.max 0 b0))
      as [|Hge]; [lia|].
    destruct (Z.eq_dec b0 34) as [E|]; [|lia].
    exfalso. rewrite E in Hge.
    change (2 ^ Z.max 0 (- (34))) with 1 in Hge.
    change (2 ^ Z.max 0 34) with 17179869184 in Hge.
    unfold jwt.usec, exact_span in *. lia. }
  clearbody b. clear b0 Hb0.
  cbv zeta.
  destruct (Z.leb_spec 0 (52 - b)); [|lia].
  pose proof (Z.pow_le_mono_r 2 19 (52 - b) ltac:(lia) ltac:(lia)) as Hp.
  change (2 ^ 19) with 524288 in Hp.
  apply round_scaled_quotient; unfold jwt.usec; lia.
Qed.

(** Below 2^34 seconds [int(delta.total_seconds())] is the truncated
    quotient. *)
Lemma int_total_seconds_exact (us : Z) :
  - exact_span < us < exact_span → int_total_seconds us = us ÷ jwt.usec.
Proof.
  intros Hus. unfold int_total_seconds.
  destruct (Z.lt_trichotomy us 0) as [Hn|[->|Hp]].
  - rewrite Z.sgn_neg, Z.abs_neq by lia.
    rewrite int_true_divide_exact by lia.
    rewrite <- Z.quot_div_nonneg by (unfold jwt.usec; lia).
    rewrite Z.quot_opp_l by (unfold jwt.usec; lia). lia.
  - done.
  - rewrite Z.sgn_pos, Z.abs_eq by lia.
    rewrite int_true_divide_exact by lia.
    rewrite Z.quot_div_nonneg by (unfold jwt.usec; lia). lia.
Qed.

Lemma int_total_seconds_pos (us : Z) : 1 ≤ int_total_seconds us → 0 < us.
Proof.
  unfold int_total_seconds. intros H.
  destruct (Z.lt_trichotomy us 0) as [Hn|[->|Hp]]; [|done..].
  rewrite Z.sgn_neg in H by done.
  pose proof (int_true_divide_nonneg (Z.abs us) (Z.abs_nonneg us)). lia.
Qed.

Lemma fromtimestamp_Return_inv (local : localtime) (t w : Z) :
  fromtimestamp local t = Return w →
  w = t + utcoffset local t ∧ datetime_min ≤ w ≤ datetime_max.
Proof.
  unfold fromtimestamp. cbv zeta.
  destruct (Z.leb_spec datetime_min (t + utcoffset local t)); [|done].
  destruct (Z.leb_spec (t + utcoffset local t) datetime_max); [|done].
  intros [= <-]. lia.
Qed.

(** The TTL that [lock_refresh_token] computes for an integer [exp]. *)
Lemma remaining_seconds_Return_inv (local : localtime) (exp now ttl : Z) :
  remaining_seconds local (VInt exp) now = Return ttl →
  ttl = int_total_seconds (exp * jwt.usec - now + offset_change local now exp).
Proof.
  unfold remaining_seconds, rbind.
  destruct (fromtimestamp local (exp * jwt.usec)) as [w1|] eqn:H1; [|done].
  destruct (fromtimestamp local now) as [w2|] eqn:H2; [|done].
  apply fromtimestamp_Return_inv in H1 as [-> _].
  apply fromtimestamp_Return_inv in H2 as [-> _].
  intros [= <-]. unfold offset_change. f_equal. lia.
Qed.

End timedelta.

(** ** Logout: [lock_refresh_token] *)
Section logout.
Context (self : AuthHandler) (local : localtime).

Lemma lock_guard_lockable (p : dict) :
  negb (truthy (dict_get "sub" p)) || negb (truthy (dict_get "id" p))
  || negb (truthy (dict_get "exp" p)) || negb (truthy (dict_get "is_active" p))
  = negb (lockable p).
Proof.
  unfold lockable.
  by destruct (truthy (dict_get "sub" p)), (truthy (dict_get "id" p)),
    (truthy (dict_get "exp" p)), (truthy (dict_get "is_active" p)).
Qed.

(** [lock_refresh_token] after a successful decode, case by case. *)
Lemma lock_refresh_token_decoded (tok : token) (now : Z) (p : dict) (s : Redis.db) :
  decode_refresh_token self tok now = Return p →
  lock_refresh_token self local tok now s =
    if negb (lockable p) then (Raise Invalid_token, s)
    else match remaining_seconds local (dict_get "exp" p) now with
         | Raise e => (Raise e, s)
         | Return ttl =>
             match RedisClient.setex now (marker_key p) ttl (marker_value p) s with
             | (Return _, s') => (Return (dict_get "sub" p), s')
             | (Raise e, s') => (Raise e, s')
             end
         end.
Proof.
  intros Hd. unfold lock_refresh_token, bind, lift. rewrite Hd.
  rewrite lock_guard_lockable. destruct (lockable p); simpl; [|done].
  destruct (remaining_seconds local (dict_get "exp" p) now) as [ttl|e]; [|done].
  fold (marker_key p). fold (marker_value p).
  by destruct (RedisClient.setex now (marker_key p) ttl (marker_value p) s) as [[[]|e] s'].
Qed.

Lemma lock_refresh_token_undecoded (tok : token) (now : Z) (e : exn) (s : Redis.db) :
  decode_refresh_token self tok now = Raise e →
  lock_refresh_token self local tok now s = (Raise e, s).
Proof. intros Hd. unfold lock_refresh_token, bind, lift. by rewrite Hd. Qed.

Lemma setex_run (now : Z) (key : string) (ttl : Z) (v : string) (s : Redis.db) :
  Redis.outage s = None → 1 ≤ ttl →
  RedisClient.setex now key ttl v s =
    (Return tt,
     Redis.Db None (<[key := Redis.Entry v (now + ttl * jwt.usec)]> (Redis.data s))).
Proof.
  intros Hout Httl. unfold RedisClient.setex, RedisClient.guard. rewrite Hout.
  by destruct (Z.leb_spec ttl 0); [lia|].
Qed.

(** A successful logout, read backwards. *)
Lemma lock_refresh_token_Return_inv (tok : token) (now : Z) (s s1 : Redis.db)
    (uid : pyval) :
  lock_refresh_token self local tok now s = (Return uid, s1) →
  ∃ p ttl,
    decode_refresh_token self tok now = Return p ∧
    lockable p = true ∧
    remaining_seconds local (dict_get "exp" p) now = Return ttl ∧
    1 ≤ ttl ∧
    uid = dict_get "sub" p ∧
    s1 = Redis.Db None
           (<[marker_key p := Redis.Entry (marker_value p) (now + ttl * jwt.usec)]>
              (Redis.data s)).
Proof.
  destruct (decode_refresh_token self tok now) as [p|e] eqn:Hd.
  2:{ by rewrite (lock_refresh_token_undecoded _ _ _ _ Hd). }
  rewrite (lock_refresh_token_decoded _ _ _ _ Hd).
  destruct (lockable p) eqn:Hl; simpl; [|done].
  destruct (remaining_seconds local (dict_get "exp" p) now) as [ttl|e] eqn:Hr; [|done].
  unfold RedisClient.setex, RedisClient.guard.
  destruct (Redis.outage s) eqn:Hout; [done|].
  destruct (Z.leb_spec ttl 0); [done|].
  intros [= <- <-]. exists p, ttl. repeat split; try done. lia.
Qed.

End logout.

(** ** The Session Guard: [verify_refresh_token] and [auth_user] *)
Section guard.
Context (self : AuthHandler).

Lemma get_run (now : Z) (key : string) (s : Redis.db) :
  Redis.outage s = None →
  RedisClient.get now key s = (Return (Redis.lookup_live now key s), s).
Proof. intros Hout. unfold RedisClient.get, RedisClient.guard. by rewrite Hout. Qed.

Lemma get_outage (now : Z) (key msg : string) (s : Redis.db) :
  Redis.outage s = Some msg →
  RedisClient.get now key s = (Raise (ConnectionError msg), s).
Proof. intros Hout. unfold RedisClient.get, RedisClient.guard. by rewrite Hout. Qed.

Lemma verify_refresh_token_decoded (tok : token) (now : Z) (p : dict) (s : Redis.db) :
  decode_refresh_token self tok now = Return p →
  verify_refresh_token self tok now s =
    if negb (truthy (dict_get "id" p)) then (Raise Invalid_token, s)
    else match RedisClient.get now (marker_key p) s with
         | (Return locked, s') =>
             if bytes_truthy locked then (Raise Token_locked, s') else (Return tt, s')
         | (Raise e, s') => (Raise e, s')
         end.
Proof.
  intros Hd. unfold verify_refresh_token, bind, lift. rewrite Hd.
  destruct (truthy (dict_get "id" p)); simpl; [|done].
  fold (marker_key p).
  destruct (RedisClient.get now (marker_key p) s) as [[locked|e] s']; [|done].
  by destruct (bytes_truthy locked).
Qed.

Lemma verify_refresh_token_undecoded (tok : token) (now : Z) (e : exn) (s : Redis.db) :
  decode_refresh_token self tok now = Raise e →
  verify_refresh_token self tok now s = (Raise e, s).
Proof. intros Hd. unfold verify_refresh_token, bind, lift. by rewrite Hd. Qed.

(** The guard never changes the store. *)
Lemma verify_refresh_token_store (tok : token) (now : Z) (s : Redis.db) :
  (verify_refresh_token self tok now s).2 = s.
Proof.
  destruct (decode_refresh_token self tok now) as [p|e] eqn:Hd.
  - rewrite (verify_refresh_token_decoded _ _ _ _ Hd).
    destruct (truthy (dict_get "id" p)); simpl; [|done].
    unfold RedisClient.get, RedisClient.guard.
    destruct (Redis.outage s); [done|]. by destruct (bytes_truthy _).
  - by rewrite (verify_refresh_token_undecoded _ _ _ _ Hd).
Qed.

Lemma auth_user_session (request : Request) (auth : HTTPAuthorizationCredentials)
    (tok : token) (now : Z) (s : Redis.db) :
  cookie request "session-token" = Some tok →
  auth_user self request auth now s =
    match verify_refresh_token self tok now s with
    | (Return _, s') => (decode_access_token self (credentials auth) now, s')
    | (Raise e, s') => (Raise e, s')
    end.
Proof.
  intros Hc. unfold auth_user. rewrite Hc. unfold bind, lift.
  by destruct (verify_refresh_token self tok now s) as [[[]|e] s'].
Qed.

Lemma cookie_with_session (tok : token) :
  token_truthy tok = true → cookie (with_session tok) "session-token" = Some tok.
Proof.
  intros Ht. unfold cookie, with_session. simpl.
  by rewrite lookup_singleton_eq, Ht.
Qed.

Lemma marker_value_truthy (p : dict) : bytes_truthy (Some (marker_value p)) = true.
Proof. unfold marker_value. by destruct (py_str (dict_get "sub" p)). Qed.

(** A decodable session token stays decodable until its [exp]. *)
Lemma decode_refresh_token_later (tok : token) (now now' exp : Z) (p : dict) :
  decode_refresh_token self tok now = Return p →
  p !! "exp" = Some (VInt exp) → now' < exp * jwt.usec →
  decode_refresh_token self tok now' = Return p.
Proof.
  intros (Hd & [sub Hsub] & r & Hr & Hk)%decode_refresh_token_Return_inv Hexp Hlt.
  apply decode_Return_inv in Hd as [-> _].
  eapply decode_refresh_token_session; try done.
  change (jwt.Jws (secret self) p) with (jwt.encode p (secret self)).
  rewrite decode_signed, Hexp. by destruct (Z.leb_spec (exp * jwt.usec) now'); [lia|].
Qed.

End guard.

(** ** Revocation *)
Section revocation.
Context (self : AuthHandler) (local : localtime).

Lemma whole_seconds_le (a : Z) : 0 ≤ a → (a ÷ jwt.usec) * jwt.usec ≤ a.
Proof.
  intros Ha. rewrite Z.quot_div_nonneg by done.
  rewrite Z.mul_comm. by apply Z.mul_div_le.
Qed.

(** A decodable token that [lock_refresh_token] accepts carries an
    integer [exp] that lies in the future. *)
Lemma lockable_exp (tok : token) (now : Z) (p : dict) :
  decode_refresh_token self tok now = Return p →
  truthy (dict_get "exp" p) = true →
  ∃ exp, p !! "exp" = Some (VInt exp) ∧ dict_get "exp" p = VInt exp ∧
         now < exp * jwt.usec.
Proof.
  intros (Hd & _)%decode_refresh_token_Return_inv.
  apply decode_Return_inv in Hd as [_ [Hnone|(exp & Hexp & Hlt)]].
  - unfold dict_get. by rewrite Hnone.
  - intros _. exists exp. unfold dict_get. by rewrite Hexp.
Qed.


(** The store after a successful [lock_refresh_token]. *)
Lemma marker_is_live (p : dict) (now now' ttl : Z) (s : Redis.db) :
  now' < now + ttl * jwt.usec →
  bytes_truthy
    (Redis.lookup_live now' (marker_key p)
       (Redis.Db None
          (<[marker_key p := Redis.Entry (marker_value p) (now + ttl * jwt.usec)]>
             (Redis.data s)))) = true.
Proof.
  intros Hlt. unfold Redis.lookup_live. simpl. rewrite lookup_insert_eq.
  unfold Redis.live. simpl.
  destruct (Z.ltb_spec now' (now + ttl * jwt.usec)); [|lia].
  apply marker_value_truthy.
Qed.

Lemma lockable_parts (p : dict) :
  lockable p = true →
  truthy (dict_get "sub" p) = true ∧ truthy (dict_get "id" p) = true ∧
  truthy (dict_get "exp" p) = true ∧ truthy (dict_get "is_active" p) = true.
Proof.
  unfold lockable.
  by destruct (truthy (dict_get "sub" p)), (truthy (dict_get "id" p)),
    (truthy (dict_get "exp" p)), (truthy (dict_get "is_active" p)).
Qed.

(** Whoever holds a live marker is refused by the guard. *)
Lemma marker_found_is_locked (request : Request)
    (auth : HTTPAuthorizationCredentials) (tok : token) (now : Z) (p : dict)
    (s : Redis.db) :
  cookie request "session-token" = Some tok →
  decode_refresh_token self tok now = Return p →
  truthy (dict_get "id" p) = true →
  Redis.outage s = None →
  bytes_truthy (Redis.lookup_live now (marker_key p) s) = true →
  auth_user self request auth now s = (Raise Token_locked, s).
Proof.
  intros Hc Hd Hid Hout Hm.
  rewrite (auth_user_session _ _ _ _ _ _ Hc).
  rewrite (verify_refresh_token_decoded _ _ _ _ _ Hd), Hid. simpl.
  by rewrite get_run, Hm.
Qed.



(** C10: for a validly signed, unexpired session token whose
    [is_active] claim is falsy or missing, [lock_refresh_token] raises
    "Invalid token" and leaves the store as it was, and so the logout
    route fails (its handler reports the 401 inside a 500) without a
    marker being written. *)
Theorem inactive_session_cannot_logout (p : dict) (now : Z) (s : Redis.db)
    (db : users.MongoDb) :
  jwt.decode (jwt.encode p (secret self)) (secret self) now = Return p →
  p !! "refresh" = Some (VBool true) →
  truthy (dict_get "is_active" p) = false →
  lock_refresh_token self local (jwt.encode p (secret self)) now s
    = (Raise Invalid_token, s) ∧
  users.logout_user self local (with_session (jwt.encode p (secret self))) db now s
    = (Raise (HTTPException HTTP_500_INTERNAL_SERVER_ERROR
                "Internal server error: 401: Invalid token"), s).
Proof.
  intros Hd Hr Hact.
  assert (lock_refresh_token self local (jwt.encode p (secret self)) now s
          = (Raise Invalid_token, s)) as Hlock.
  { destruct (p !! "sub") as [sub|] eqn:Hsub.
    - rewrite (lock_refresh_token_decoded _ _ _ _ p).
      + unfold lockable. by rewrite Hact, andb_false_r.
      + by eapply decode_refresh_token_session.
    - apply lock_refresh_token_undecoded.
      by apply decode_refresh_token_no_sub. }
  split; [done|].
  unfold users.logout_user, users.except_Exception.
  rewrite cookie_with_session by done.
  unfold bind at 1. by rewrite Hlock.
Qed.

End revocation.

(** ** Issuance *)
Section issuance.
Context (self : AuthHandler).

Lemma hex_of_truthy (k : nat) : ∀ (n : N) (acc : string),
  (k ≠ 0%nat ∨ truthy (VStr acc) = true) →
  truthy (VStr (uuid.hex_of k n acc)) = true.
Proof.
  induction k as [|k IH]; intros n acc Hk; simpl.
  - by destruct Hk.
  - apply IH. by right.
Qed.

Lemma uuid_hex_truthy (bits : N) : truthy (VStr (uuid.hex bits)) = true.
Proof. apply hex_of_truthy. by left. Qed.

Lemma timegm_mono (a b : Z) : a ≤ b → timegm a ≤ timegm b.
Proof. intros H. apply Z.div_le_mono; [done|exact H]. Qed.

(** The claims [encode_token] signs. *)
Lemma encode_token_signed (user_data : dict) (type : string) (now : Z) (u : N) :
  encode_token self user_data type now u
  = jwt.encode (claims_of (encode_token self user_data type now u)) (secret self).
Proof. done. Qed.

Lemma encode_token_claims (user_data : dict) (type : string) (now : Z) (u : N) :
  ∀ p access,
    p = claims_of (encode_token self user_data type now u) →
    access = String.eqb type "access_token" →
    p !! "sub" = Some (dict_get "id" user_data) ∧
    p !! "id" = Some (VStr (uuid.hex u)) ∧
    p !! "refresh" = Some (VBool (negb access)) ∧
    p !! "exp"
      = Some (VInt (timegm (now + if access then minutes 60 else hours 720))) ∧
    p !! "is_active" = Some (dict_get_or "is_active" (VBool false) user_data).
Proof.
  intros p access -> ->. unfold encode_token, jwt.encode, claims_of.
  destruct (String.eqb type "access_token"); simpl;
    repeat split; by simplify_map_eq.
Qed.

(** An issued token decodes to its own claims until it expires. *)
Lemma decode_issued (user_data : dict) (type : string) (now now' : Z) (u : N) :
  let tok := encode_token self user_data type now u in
  let access := String.eqb type "access_token" in
  now' < timegm (now + if access then minutes 60 else hours 720) * jwt.usec →
  (if access then decode_access_token else decode_refresh_token) self tok now'
    = Return (claims_of tok).
Proof.
  intros tok access Hlt.
  destruct (encode_token_claims user_data type now u (claims_of tok) access)
    as (Hsub & _ & Hr & Hexp & _); [done..|].
  assert (jwt.decode (jwt.Jws (secret self) (claims_of tok)) (secret self) now'
          = Return (claims_of tok)) as Hd.
  { change (jwt.Jws (secret self) (claims_of tok))
      with (jwt.encode (claims_of tok) (secret self)).
    rewrite decode_signed, Hexp.
    by destruct (Z.leb_spec (timegm (now + if access then minutes 60 else hours 720)
                             * jwt.usec) now'); [lia|]. }
  unfold tok at 1. rewrite encode_token_signed. fold tok.
  destruct access; simpl in *.
  - by eapply decode_access_token_bearer.
  - by eapply decode_refresh_token_session.
Qed.

Lemma user_payload_id (I : users.user_doc) :
  dict_get "id" (users.user_payload I) = VStr (users._id I).
Proof. unfold dict_get, users.user_payload. by simplify_map_eq. Qed.

(** C6: for every identity [I] and reachable store, issuing a pair for
    [I] succeeds, and decoding the authorization token and the session
    token of the pair, each before its expiry, returns claims whose
    [sub] is the id of [I]. *)
Theorem issued_pair_carries_subject (I : users.user_doc) (now now_a now_r : Z)
    (ua ur : N) (s : Redis.db) :
  Redis.outage s = None →
  now_a < timegm (now + minutes 60) * jwt.usec →
  now_r < timegm (now + hours 720) * jwt.usec →
  ∃ access_token refresh_token s' pa pr,
    encode_login_token self (users.user_payload I) now ua ur s
      = (Return (access_token, refresh_token), s') ∧
    decode_access_token self access_token now_a = Return pa ∧
    dict_get "sub" pa = VStr (users._id I) ∧
    decode_refresh_token self refresh_token now_r = Return pr ∧
    dict_get "sub" pr = VStr (users._id I).
Proof.
  intros Hout Ha Hr.
  destruct (encode_login_token_run self (users.user_payload I) now ua ur s Hout)
    as (s' & Hrun & _).
  eexists _, _, s', _, _. split; [exact Hrun|].
  split; [exact (decode_issued _ "access_token" now now_a ua Ha)|].
  split.
  { destruct (encode_token_claims (users.user_payload I) "access_token" now ua
                _ _ eq_refl eq_refl) as (Hsub & _).
    unfold dict_get at 1. rewrite Hsub. apply user_payload_id. }
  split; [exact (decode_issued _ "refresh_token" now now_r ur Hr)|].
  destruct (encode_token_claims (users.user_payload I) "refresh_token" now ur
              _ _ eq_refl eq_refl) as (Hsub & _).
  unfold dict_get at 1. rewrite Hsub. apply user_payload_id.
Qed.

End issuance.

(** ** Store outages *)
Section outage.
Context (self : AuthHandler).

Lemma scan_iter_outage (now : Z) (pattern msg : string) (s : Redis.db) :
  Redis.outage s = Some msg →
  RedisClient.scan_iter now pattern s = (Raise (ConnectionError msg), s).
Proof.
  intros Hout. unfold RedisClient.scan_iter, RedisClient.guard. by rewrite Hout.
Qed.

(** C5 (as amended): while the Revocation Store is unreachable the
    Session Guard admits no request -- once the session token has been
    decoded the store's [ConnectionError] leaves [auth_user] unhandled,
    it is not turned into a "Token locked" rejection -- and the
    login-time sweep is not best-effort: the same error leaves
    [encode_login_token] and no token pair is issued. *)
Theorem store_outage_is_not_handled (msg : string) (s : Redis.db) :
  Redis.outage s = Some msg →
  (∀ request auth now, is_Return (auth_user self request auth now s).1 = false) ∧
  (∀ request auth tok now p,
     cookie request "session-token" = Some tok →
     decode_refresh_token self tok now = Return p →
     truthy (dict_get "id" p) = true →
     auth_user self request auth now s = (Raise (ConnectionError msg), s)) ∧
  (∀ user_data now ua ur,
     encode_login_token self user_data now ua ur s
       = (Raise (ConnectionError msg), s)).
Proof.
  intros Hout.
  assert (∀ tok now p, decode_refresh_token self tok now = Return p →
            truthy (dict_get "id" p) = true →
            verify_refresh_token self tok now s = (Raise (ConnectionError msg), s))
    as Hverify.
  { intros tok now p Hd Hid.
    rewrite (verify_refresh_token_decoded _ _ _ _ _ Hd), Hid. simpl.
    by rewrite (get_outage _ _ msg). }
  split; [|split].
  - intros request auth now. unfold auth_user.
    destruct (cookie request "session-token") as [tok|]; [|done].
    unfold bind.
    destruct (decode_refresh_token self tok now) as [p|e] eqn:Hd.
    + destruct (truthy (dict_get "id" p)) eqn:Hid.
      * by rewrite (Hverify _ _ _ Hd Hid).
      * by rewrite (verify_refresh_token_decoded _ _ _ _ _ Hd), Hid.
    + by rewrite (verify_refresh_token_undecoded _ _ _ _ _ Hd).
  - intros request auth tok now p Hc Hd Hid.
    rewrite (auth_user_session _ _ _ _ _ _ Hc).
    by rewrite (Hverify _ _ _ Hd Hid).
  - intros user_data now ua ur. unfold encode_login_token, bind.
    by rewrite (scan_iter_outage _ _ msg).
Qed.

End outage.

(** ** The login-time sweep and the new pair *)
Section cleanup.
Context (self : AuthHandler).

Lemma app_nil (s : string) : "" +:+ s = s.
Proof. done. Qed.

Lemma app_cons (c : ascii) (s t : string) : String c s +:+ t = String c (s +:+ t).
Proof. done. Qed.

(** Hexadecimal ids hold no colon, so "a:" is a prefix of "b:..." only
    when [a] is [b]. *)
Lemma prefix_cons (c d : ascii) (s t : string) :
  String.prefix (String c s) (String d t)
  = if ascii_dec c d then String.prefix s t else false.
Proof. done. Qed.

Lemma hex_prefix_inj (a : string) : ∀ b rest : string,
  users.all_hex a = true → users.all_hex b = true →
  startswith (b +:+ ":" +:+ rest) (a +:+ ":") = true → a = b.
Proof.
  unfold startswith.
  induction a as [|c a IH]; intros [|d b] rest Ha Hb.
  - done.
  - rewrite app_nil, !app_cons, prefix_cons.
    destruct (ascii_dec ":" d) as [<-|]; [|done]. by simpl in Hb.
  - rewrite app_nil, !app_cons, prefix_cons.
    destruct (ascii_dec c ":") as [->|]; [|done]. by simpl in Ha.
  - rewrite !app_cons, prefix_cons. destruct (ascii_dec c d) as [->|]; [|done].
    simpl in Ha, Hb. apply andb_true_iff in Ha as [_ Ha].
    apply andb_true_iff in Hb as [_ Hb].
    intros H. f_equal. by eapply IH.
Qed.

Lemma lookup_live_later (now now' : Z) (k : string) (s : Redis.db) :
  now ≤ now' → Redis.lookup_live now k s = None → Redis.lookup_live now' k s = None.
Proof.
  intros Hle. unfold Redis.lookup_live, Redis.live.
  destruct (Redis.data s !! k) as [e|]; [|done].
  destruct (Z.ltb_spec now (Redis.expire_at e)); [done|].
  by destruct (Z.ltb_spec now' (Redis.expire_at e)); [lia|].
Qed.

(** C9: on a reachable store, issuing a pair for the identity [I]
    deletes exactly the live "token:*" markers whose value starts with
    the id of [I] followed by a colon and changes no other key; a marker
    that belongs to a different subject (ids are hexadecimal ObjectId
    strings) is left as it was; and when the two fresh token ids had no
    live marker before, they have none afterwards and the Session Guard
    admits the new session token together with the new authorization
    token. *)
Theorem login_sweep_frame (I : users.user_doc) (now now' : Z) (ua ur : N)
    (s : Redis.db) :
  Redis.outage s = None →
  users.all_hex (users._id I) = true →
  Redis.lookup_live now ("token:" +:+ uuid.hex ua) s = None →
  Redis.lookup_live now ("token:" +:+ uuid.hex ur) s = None →
  now ≤ now' < timegm (now + minutes 60) * jwt.usec →
  ∃ access_token refresh_token s',
    encode_login_token self (users.user_payload I) now ua ur s
      = (Return (access_token, refresh_token), s') ∧
    (∀ k, Redis.data s' !! k =
          if Redis.glob "token:*" k && references now (users._id I) s k
          then None else Redis.data s !! k) ∧
    (∀ k e other flag,
       users.all_hex other = true → other ≠ users._id I →
       Redis.data s !! k = Some e →
       Redis.value e = other +:+ ":" +:+ flag →
       Redis.data s' !! k = Some e) ∧
    Redis.lookup_live now' ("token:" +:+ uuid.hex ua) s' = None ∧
    Redis.lookup_live now' ("token:" +:+ uuid.hex ur) s' = None ∧
    auth_user self (with_session refresh_token) (bearer access_token) now' s'
      = (Return (claims_of access_token), s').
Proof.
  intros Hout Hhex Hfa Hfr [Hle Hlt].
  destruct (encode_login_token_run self (users.user_payload I) now ua ur s Hout)
    as (s' & Hrun & Hout' & Hdata).
  rewrite user_payload_id in Hdata. cbn [py_str] in Hdata.
  assert (∀ k, Redis.lookup_live now k s = None →
               Redis.lookup_live now' k s' = None) as Hfresh.
  { intros k Hk. unfold Redis.lookup_live at 1. rewrite Hdata.
    destruct (Redis.glob "token:*" k && references now (users._id I) s k);
      [done|].
    by apply (lookup_live_later now now'). }
  eexists _, _, s'. split; [exact Hrun|].
  split; [exact Hdata|]. split; [|split; [by apply Hfresh|split; [by apply Hfresh|]]].
  - intros k e other flag Hother Hne Hk Hv. rewrite Hdata.
    destruct (references now (users._id I) s k) eqn:Href;
      [|by rewrite andb_false_r].
    exfalso. apply Hne. symmetry.
    unfold references, Redis.lookup_live in Href. rewrite Hk in Href.
    destruct (Redis.live now e); [|done]. simpl in Href. rewrite Hv in Href.
    apply andb_true_iff in Href as [_ Href].
    by eapply hex_prefix_inj.
  - set (rt := encode_token self (users.user_payload I) "refresh_token" now ur).
    set (at_ := encode_token self (users.user_payload I) "access_token" now ua).
    destruct (encode_token_claims self (users.user_payload I) "refresh_token" now ur
                (claims_of rt) _ eq_refl eq_refl) as (_ & Hid & _).
    assert (decode_refresh_token self rt now' = Return (claims_of rt)) as Hd.
    { apply (decode_issued self _ "refresh_token" now now' ur). simpl.
      assert (timegm (now + minutes 60) ≤ timegm (now + hours 720)) as Hm.
      { apply timegm_mono. unfold minutes, hours, jwt.usec. lia. }
      unfold jwt.usec in *. lia. }
    rewrite (auth_user_session self _ _ rt) by by apply cookie_with_session.
    assert (dict_get "id" (claims_of rt) = VStr (uuid.hex ur)) as Hget.
    { unfold dict_get. by rewrite Hid. }
    rewrite (verify_refresh_token_decoded _ _ _ _ _ Hd).
    unfold marker_key. rewrite Hget, uuid_hex_truthy. cbn [negb py_str].
    rewrite get_run by done. rewrite (Hfresh _ Hfr). cbn [bytes_truthy].
    f_equal. exact (decode_issued self _ "access_token" now now' ua Hlt).
Qed.

End cleanup.

(** ** The refresh route *)
Section refresh.
Context (auth_handler : AuthHandler).

(** The route reads the store under the bare token id.  When nothing
    lives under that key -- the application only ever writes keys that
    start with "token:" -- an active user gets a fresh authorization
    token, whatever is stored under "token:<id>". *)
Lemma refresh_reads_bare_token_id (request : Request) (db : users.MongoDb)
    (now : Z) (uuid4 : N) (s : Redis.db) (tok : token) (p : dict)
    (token_id user_id oid : string) (user : users.user_doc) :
  cookie request "session-token" = Some tok →
  decode_refresh_token auth_handler tok now = Return p →
  dict_get "id" p = VStr token_id → truthy (VStr token_id) = true →
  dict_get "sub" p = VStr user_id → truthy (VStr user_id) = true →
  Redis.outage s = None →
  Redis.lookup_live now token_id s = None →
  users.ObjectId (VStr user_id) = Return oid →
  users.find_one_active db oid = Some user →
  users.refresh_login_user auth_handler request db now uuid4 s
    = (Return (users.Response HTTP_200_OK
         (users.token_body
            (encode_token auth_handler (users.user_payload user)
               "access_token" now uuid4))), s).
Proof.
  intros Hc Hd Hid Htid Hsub Huid Hout Hkey Hoid Hfind.
  unfold users.refresh_login_user, users.except_Exception.
  rewrite Hc. unfold bind, lift. rewrite Hd, Hsub, Hid, Huid, Htid.
  cbn [negb orb RedisClient.encode_key].
  rewrite get_run by done. rewrite Hkey. cbn [bytes_truthy].
  by rewrite Hoid, Hfind.
Qed.

End refresh.

(** ** The scenario, evaluated *)
Section scenarios.
Import scenario.

Ltac evaluate := vm_compute; reflexivity.

Lemma alice_logout :
  lock_refresh_token auth_handler utc alice_session t_logout empty_store
  = (Return (VStr "64b7f3a2c1d4e5f6a7b8c9d0"), revoked_store).
Proof. evaluate. Qed.

(** C1: Alice's session token is revoked -- its marker is live in the
    store and the Session Guard refuses the token with "Token locked" --
    and yet the refresh route, which looks the marker up under the bare
    token id instead of "token:<id>", answers 200 with a fresh
    authorization token. *)
Theorem refresh_overlooks_marker :
  Redis.lookup_live t_check "token:00000000000000000000000000000008" revoked_store
    = Some "64b7f3a2c1d4e5f6a7b8c9d0:True" ∧
  auth_user auth_handler (with_session alice_session) (bearer alice_access)
      t_check revoked_store
    = (Raise Token_locked, revoked_store) ∧
  users.refresh_login_user auth_handler (with_session alice_session) mongo
      t_check 12 revoked_store
    = (Return (users.Response HTTP_200_OK
         (users.token_body
            (encode_token auth_handler (users.user_payload alice)
               "access_token" t_check 12))),
       revoked_store).
Proof. repeat split; evaluate. Qed.

(** C4: a token signed with the secret whose payload has [sub] but no
    [refresh] claim makes both decoders raise [KeyError], which neither
    [except] clause turns into a 401. *)
Theorem decoders_raise_KeyError :
  decode_access_token auth_handler bare_token t_check = Raise (KeyError "refresh") ∧
  decode_refresh_token auth_handler bare_token t_check = Raise (KeyError "refresh").
Proof. split; evaluate. Qed.



(** Counterexample to C5 as stated: with the store unreachable the
    sweep's error is not swallowed; issuance raises it and returns no
    pair. *)
Lemma outage_aborts_issuance :
  encode_login_token auth_handler (users.user_payload alice) t_login 7 8
    unreachable_store
  = (Raise (ConnectionError "Error 111 connecting to redis:6379. Connection refused."),
     unreachable_store).
Proof. evaluate. Qed.

(** Two observations on the whole-second TTL.  The marker of Alice's
    logout lapses three quarters of a second before her session token
    does, and in between the guard admits the token again. *)
Lemma marker_lapses_before_token :
  decode_refresh_token auth_handler alice_session 1702591999500000
    = Return (claims_of alice_session) ∧
  Redis.lookup_live 1702591999500000 "token:00000000000000000000000000000008"
    revoked_store = None ∧
  auth_user auth_handler (with_session alice_session) (bearer late_access)
      1702591999500000 revoked_store
    = (Return (claims_of late_access), revoked_store).
Proof. repeat split; evaluate. Qed.

(** And a logout in the last second of the token computes a TTL of zero,
    which Redis refuses: the call raises and writes nothing. *)
Lemma last_second_logout_raises :
  remaining_seconds utc (dict_get "exp" (claims_of alice_session)) 1702591999500000
    = Return 0 ∧
  lock_refresh_token auth_handler utc alice_session 1702591999500000 empty_store
    = (Raise (ResponseError "invalid expire time in 'setex' command"), empty_store).
Proof. split; evaluate. Qed.

(** The zone of the server matters.  On Paris time, Alice logs out of
    her October session ten minutes after logging in; the clocks go back
    before the token expires, so the marker is written with a TTL one
    hour short of the 2591399 whole seconds of lifetime left, and in the
    last hour the guard admits the token she had logged out of. *)
Lemma october_marker_lapses_an_hour_early :
  claims_of october_session !! "exp" = Some (VInt 1731592000) ∧
  remaining_seconds paris (VInt 1731592000) t_october_logout = Return 2587799 ∧
  lock_refresh_token auth_handler paris october_session t_october_logout
      empty_store
    = (Return (VStr "64b7f3a2c1d4e5f6a7b8c9d0"), october_store) ∧
  auth_user auth_handler (with_session october_session) (bearer october_access)
      1731590200000000 october_store
    = (Return (claims_of october_access), october_store).
Proof. repeat split; evaluate. Qed.

(** In March the clocks go forward, and the marker outlives the token
    by an hour. *)
Lemma march_marker_outlives_token :
  claims_of march_session !! "exp" = Some (VInt 1713592000) ∧
  remaining_seconds paris (VInt 1713592000) (t_march + minutes 10)
    = Return 2594999 ∧
  lock_refresh_token auth_handler paris march_session (t_march + minutes 10)
      empty_store
    = (Return (VStr "64b7f3a2c1d4e5f6a7b8c9d0"),
       Redis.Db None
         {[ "token:0000000000000000000000000000000e" :=
              Redis.Entry "64b7f3a2c1d4e5f6a7b8c9d0:True" 1713595599250000 ]}).
Proof. repeat split; evaluate. Qed.

(** A signed session token whose [exp] lies past the year 9999 decodes,
    and logout fails on the conversion of [exp] to a local time: nothing
    is written, and the route reports the error in a 500. *)
Lemma millennial_logout_raises :
  decode_refresh_token auth_handler millennial_session t_logout
    = Return (claims_of millennial_session) ∧
  lockable (claims_of millennial_session) = true ∧
  lock_refresh_token auth_handler utc millennial_session t_logout empty_store
    = (Raise (ValueError_ "year 10000 is out of range"), empty_store) ∧
  users.logout_user auth_handler utc (with_session millennial_session) mongo
      t_logout empty_store
    = (Raise (HTTPException HTTP_500_INTERNAL_SERVER_ERROR
                "Internal server error: year 10000 is out of range"),
       empty_store).
Proof. repeat split; evaluate. Qed.

(** The float division behind [total_seconds] rounds a long timedelta
    up to the next whole second where the truncated quotient does not. *)
Lemma long_timedelta_rounds_up :
  int_total_seconds 300000000000999999 = 300000000001 ∧
  300000000000999999 ÷ jwt.usec = 300000000000.
Proof. split; evaluate. Qed.

(** *** The general theorems at the scenario *)



(** Witness of C5: the unreachable store. *)
Lemma store_outage_is_not_handled_witness :
  is_Return (auth_user auth_handler (with_session alice_session)
               (bearer alice_access) t_check unreachable_store).1 = false ∧
  encode_login_token auth_handler (users.user_payload alice) t_login 7 8
      unreachable_store
    = (Raise (ConnectionError "Error 111 connecting to redis:6379. Connection refused."),
       unreachable_store).
Proof.
  destruct (store_outage_is_not_handled auth_handler
              "Error 111 connecting to redis:6379. Connection refused."
              unreachable_store eq_refl) as (Hguard & _ & Hissue).
  split; [apply Hguard|apply Hissue].
Defined.

(** Witness of C6: the pair issued to Alice, decoded at [t_check]. *)
Lemma issued_pair_carries_subject_witness :
  ∃ access_token refresh_token s' pa pr,
    encode_login_token auth_handler (users.user_payload alice) t_login 7 8
        empty_store
      = (Return (access_token, refresh_token), s') ∧
    decode_access_token auth_handler access_token t_check = Return pa ∧
    dict_get "sub" pa = VStr "64b7f3a2c1d4e5f6a7b8c9d0" ∧
    decode_refresh_token auth_handler refresh_token t_check = Return pr ∧
    dict_get "sub" pr = VStr "64b7f3a2c1d4e5f6a7b8c9d0".
Proof.
  apply (issued_pair_carries_subject auth_handler alice t_login t_check t_check
           7 8 empty_store); [reflexivity|by vm_compute..].
Defined.

(** Witness of C7: the signed session token without [sub]. *)
Lemma missing_subject_is_invalid_witness :
  claims_of anonymous_session !! "sub" = None ∧
  decode_access_token auth_handler anonymous_session t_check = Raise Invalid_token ∧
  decode_refresh_token auth_handler anonymous_session t_check = Raise Invalid_token.
Proof.
  split; [evaluate|].
  apply (missing_subject_is_invalid auth_handler (claims_of anonymous_session)
           t_check); evaluate.
Defined.

(** Witness of C8: Alice's authorization token at its [exp] instant. *)
Lemma expired_from_exp_onwards_witness :
  claims_of alice_access !! "exp" = Some (VInt 1700003600) ∧
  decode_access_token auth_handler alice_access 1700003600000000
    = Raise Signature_has_expired ∧
  decode_refresh_token auth_handler alice_access 1700003600000000
    = Raise Signature_has_expired.
Proof.
  split; [evaluate|].
  apply (expired_from_exp_onwards auth_handler (claims_of alice_access)
           1700003600 1700003600000000); [evaluate|by vm_compute].
Defined.

(** Witness of C9: Alice logs in again while her marker and Bob's are
    in the store. *)
Lemma login_sweep_frame_witness :
  ∃ access_token refresh_token s',
    encode_login_token auth_handler (users.user_payload alice) t_relogin 10 11
        shared_store
      = (Return (access_token, refresh_token), s') ∧
    (∀ k, Redis.data s' !! k =
          if Redis.glob "token:*" k
             && references t_relogin "64b7f3a2c1d4e5f6a7b8c9d0" shared_store k
          then None else Redis.data shared_store !! k) ∧
    (∀ k e other flag,
       users.all_hex other = true → other ≠ "64b7f3a2c1d4e5f6a7b8c9d0" →
       Redis.data shared_store !! k = Some e →
       Redis.value e = other +:+ ":" +:+ flag →
       Redis.data s' !! k = Some e) ∧
    Redis.lookup_live t_check ("token:" +:+ uuid.hex 10) s' = None ∧
    Redis.lookup_live t_check ("token:" +:+ uuid.hex 11) s' = None ∧
    auth_user auth_handler (with_session refresh_token) (bearer access_token)
        t_check s'
      = (Return (claims_of access_token), s').
Proof.
  apply (login_sweep_frame auth_handler alice t_relogin t_check 10 11
           shared_store); [reflexivity|evaluate|evaluate|evaluate|by vm_compute].
Defined.

(** Witness of C10: the deactivated Carol tries to log out. *)
Lemma inactive_session_cannot_logout_witness :
  truthy (dict_get "is_active" (claims_of carol_session)) = false ∧
  lock_refresh_token auth_handler utc carol_session t_logout empty_store
    = (Raise Invalid_token, empty_store) ∧
  users.logout_user auth_handler utc (with_session carol_session) mongo t_logout
      empty_store
    = (Raise (HTTPException HTTP_500_INTERNAL_SERVER_ERROR
                "Internal server error: 401: Invalid token"), empty_store).
Proof.
  split; [evaluate|].
  apply (inactive_session_cannot_logout auth_handler utc (claims_of carol_session)
           t_logout empty_store mongo); evaluate.
Defined.

End scenarios.

(** * The helpers of the forms *)

(** ** Slices, digits and [adjust_cpf] *)
Section cpf.

Lemma length_app (s t : string) :
  String.length (s +:+ t) = (String.length s + String.length t)%nat.
Proof. induction s as [|c s IH]; [done|]. rewrite app_cons. simpl. by rewrite IH. Qed.

Lemma length_take (j : nat) : ∀ s : string,
  String.length (pystr.take j s) = (j `min` String.length s)%nat.
Proof.
  induction j as [|j IH]; intros [|c s]; simpl; try done. by rewrite IH.
Qed.

Lemma length_drop (i : nat) : ∀ s : string,
  String.length (pystr.drop i s) = (String.length s - i)%nat.
Proof.
  induction i as [|i IH]; intros [|c s]; simpl; first [done | lia | by rewrite IH].
Qed.

Lemma length_slice (i j : nat) (s : string) :
  String.length (pystr.slice i j s) = ((j - i) `min` (String.length s - i))%nat.
Proof. unfold pystr.slice. by rewrite length_take, length_drop. Qed.

Lemma take_app_length (s t : string) : pystr.take (String.length s) (s +:+ t) = s.
Proof. induction s as [|c s IH]; [by destruct t|]. rewrite app_cons. simpl. by rewrite IH. Qed.

Lemma drop_app_length (s t : string) : pystr.drop (String.length s) (s +:+ t) = t.
Proof. induction s as [|c s IH]; [done|]. by rewrite app_cons. Qed.

Lemma take_drop (i : nat) : ∀ s : string, pystr.take i s +:+ pystr.drop i s = s.
Proof.
  induction i as [|i IH]; intros [|c s]; simpl; try done.
  rewrite app_cons. by rewrite IH.
Qed.

Lemma app_assoc (s t u : string) : (s +:+ t) +:+ u = s +:+ t +:+ u.
Proof. induction s as [|c s IH]; [done|]. rewrite !app_cons. by rewrite IH. Qed.

Lemma app_empty_r (s : string) : s +:+ "" = s.
Proof. induction s as [|c s IH]; [done|]. rewrite app_cons. by rewrite IH. Qed.

Lemma all_chars_app (f : ascii → bool) (s t : string) :
  pystr.all_chars f (s +:+ t) = pystr.all_chars f s && pystr.all_chars f t.
Proof.
  induction s as [|c s IH]; [done|]. rewrite app_cons. simpl.
  by rewrite IH, andb_assoc.
Qed.

Lemma all_chars_take (f : ascii → bool) (j : nat) : ∀ s : string,
  pystr.all_chars f s = true → pystr.all_chars f (pystr.take j s) = true.
Proof.
  induction j as [|j IH]; intros [|c s]; simpl; try done.
  intros [Hc Hs]%andb_true_iff. by rewrite Hc, IH.
Qed.

Lemma all_chars_drop (f : ascii → bool) (i : nat) : ∀ s : string,
  pystr.all_chars f s = true → pystr.all_chars f (pystr.drop i s) = true.
Proof.
  induction i as [|i IH]; intros [|c s]; simpl; try done.
  intros [_ Hs]%andb_true_iff. by apply IH.
Qed.

Lemma remove_non_decimal_app (s t : string) :
  pystr.remove_non_decimal (s +:+ t)
  = pystr.remove_non_decimal s +:+ pystr.remove_non_decimal t.
Proof.
  induction s as [|c s IH]; [done|]. rewrite app_cons. simpl.
  destruct (pystr.is_decimal c); [|done]. by rewrite app_cons, IH.
Qed.

Lemma remove_non_decimal_decimal (s : string) :
  pystr.all_chars pystr.is_decimal s = true → pystr.remove_non_decimal s = s.
Proof.
  induction s as [|c s IH]; [done|]. simpl.
  intros [Hc Hs]%andb_true_iff. by rewrite Hc, IH.
Qed.

Lemma remove_non_decimal_all (s : string) :
  pystr.all_chars pystr.is_decimal (pystr.remove_non_decimal s) = true.
Proof.
  induction s as [|c s IH]; [done|]. simpl.
  destruct (pystr.is_decimal c) eqn:Hc; [|done]. simpl. by rewrite Hc.
Qed.

(** X1: what [adjust_cpf] returns is always six decimal digits, and it
    only returns for an input of fourteen characters. *)
Theorem adjust_cpf_returns_six_digits (cpf r : string) :
  utils.adjust_cpf cpf = Valid r →
  String.length cpf = 14%nat ∧ String.length r = 6%nat ∧
  pystr.all_chars pystr.is_decimal r = true.
Proof.
  unfold utils.adjust_cpf.
  destruct (Nat.eqb_spec (String.length (pystr.slice 3 9 (pystr.remove_non_decimal cpf))) 6)
    as [H6|]; [|done].
  destruct (Nat.eqb_spec (String.length cpf) 14) as [H14|]; [|done].
  simpl. intros [= <-]. repeat split; try done.
  apply all_chars_take, all_chars_drop, remove_non_decimal_all.
Qed.

(** X2: [adjust_cpf] accepts exactly the inputs of fourteen characters
    that hold at least nine decimal digits, wherever the digits and the
    other characters stand; every other input raises the [ValueError]
    about the format. *)
Theorem adjust_cpf_accepts_iff (cpf : string) :
  (∃ r, utils.adjust_cpf cpf = Valid r) ↔
  String.length cpf = 14%nat ∧
  (9 ≤ String.length (pystr.remove_non_decimal cpf))%nat.
Proof.
  unfold utils.adjust_cpf. rewrite length_slice.
  destruct (Nat.eqb_spec ((9 - 3) `min` (String.length (pystr.remove_non_decimal cpf) - 3)) 6)
    as [H6|H6];
    destruct (Nat.eqb_spec (String.length cpf) 14) as [H14|H14]; simpl.
  - split; [intros _; split; [done|lia]|eauto].
  - split; [by intros [? ?]|]. by intros [? _].
  - split; [by intros [? ?]|]. intros [_ ?]. lia.
  - split; [by intros [? ?]|]. by intros [? _].
Qed.

Lemma slice_middle (a m d : string) :
  String.length a = 3%nat → String.length m = 6%nat →
  pystr.slice 3 9 (a +:+ m +:+ d) = m.
Proof.
  intros La Lm. unfold pystr.slice.
  replace (pystr.drop 3 (a +:+ m +:+ d)) with (m +:+ d)
    by (rewrite <- La; symmetry; apply drop_app_length).
  replace (9 - 3)%nat with (String.length m) by lia.
  apply take_app_length.
Qed.

(** X3: on a CPF written in the announced format, three digits, a dot,
    three digits, a dot, three digits, a dash and two digits,
    [adjust_cpf] returns the fourth to ninth digit. *)
Theorem adjust_cpf_formatted (a b c d : string) :
  String.length a = 3%nat → String.length b = 3%nat →
  String.length c = 3%nat → String.length d = 2%nat →
  pystr.all_chars pystr.is_decimal a = true →
  pystr.all_chars pystr.is_decimal b = true →
  pystr.all_chars pystr.is_decimal c = true →
  pystr.all_chars pystr.is_decimal d = true →
  utils.adjust_cpf (a +:+ "." +:+ b +:+ "." +:+ c +:+ "-" +:+ d) = Valid (b +:+ c).
Proof.
  intros La Lb Lc Ld Ha Hb Hc Hd. unfold utils.adjust_cpf.
  assert (pystr.remove_non_decimal (a +:+ "." +:+ b +:+ "." +:+ c +:+ "-" +:+ d)
          = a +:+ (b +:+ c) +:+ d) as ->.
  { rewrite !remove_non_decimal_app.
    rewrite (remove_non_decimal_decimal a), (remove_non_decimal_decimal b),
      (remove_non_decimal_decimal c), (remove_non_decimal_decimal d) by done.
    change (pystr.remove_non_decimal ".") with "".
    change (pystr.remove_non_decimal "-") with "".
    by rewrite !app_nil, app_assoc. }
  rewrite slice_middle by (rewrite ?length_app; lia).
  rewrite !length_app, La, Lb, Lc, Ld. by simpl.
Qed.

(** X4: the CPF a form has validated, six digits, survives the detour
    [create_enrollment] and [update_enrollment] send it on: wrapped as
    "000.xxx.xxx-00" and adjusted again, it comes back unchanged. *)
Theorem validated_cpf_round_trip (v cpf : string) :
  schemas.validate_cpf v = Valid cpf →
  utils.adjust_cpf (enrollment.cpf_to_pass cpf) = Valid cpf.
Proof.
  unfold schemas.validate_cpf.
  destruct (utils.adjust_cpf v) as [r|msg] eqn:Hv; [|done]. intros [= ->].
  assert (String.length cpf = 6%nat ∧
          pystr.all_chars pystr.is_decimal cpf = true) as (L6 & Hdec).
  { revert Hv. unfold utils.adjust_cpf.
    destruct (Nat.eqb_spec (String.length (pystr.slice 3 9 (pystr.remove_non_decimal v))) 6);
      [|done].
    destruct (Nat.eqb_spec (String.length v) 14); [|done].
    simpl. intros [= <-]. split; [done|].
    apply all_chars_take, all_chars_drop, remove_non_decimal_all. }
  assert (String.length (pystr.slice 0 3 cpf) = 3%nat) as L1.
  { rewrite length_slice. lia. }
  assert (String.length (pystr.drop 3 cpf) = 3%nat) as L2.
  { rewrite length_drop. lia. }
  assert (pystr.slice 0 3 cpf +:+ pystr.drop 3 cpf = cpf) as Hsplit.
  { apply (take_drop 3). }
  assert (pystr.all_chars pystr.is_decimal (pystr.slice 0 3 cpf) = true) as H1.
  { by apply (all_chars_take _ 3). }
  assert (pystr.all_chars pystr.is_decimal (pystr.drop 3 cpf) = true) as H2.
  { by apply all_chars_drop. }
  unfold utils.adjust_cpf, enrollment.cpf_to_pass.
  assert (pystr.remove_non_decimal
            ("000." +:+ pystr.slice 0 3 cpf +:+ "." +:+ pystr.drop 3 cpf +:+ "-00")
          = "000" +:+ cpf +:+ "00") as ->.
  { rewrite !remove_non_decimal_app.
    rewrite (remove_non_decimal_decimal (pystr.slice 0 3 cpf)),
      (remove_non_decimal_decimal (pystr.drop 3 cpf)) by done.
    change (pystr.remove_non_decimal "000.") with "000".
    change (pystr.remove_non_decimal ".") with "".
    change (pystr.remove_non_decimal "-00") with "00".
    by rewrite !app_nil, <- (app_assoc (pystr.slice 0 3 cpf)), Hsplit. }
  rewrite slice_middle, L6 by done.
  rewrite !length_app, L1, L2. by simpl.
Qed.

End cpf.

(** ** The semester validators *)
Section semester.

Lemma isdigit_char_not_dot (c : ascii) :
  pystr.isdigit_char c = true → Ascii.eqb c "." = false.
Proof. by destruct c as [[] [] [] [] [] [] [] []]. Qed.

Lemma is_decimal_isdigit (c : ascii) :
  pystr.is_decimal c = true → pystr.isdigit_char c = true.
Proof. unfold pystr.isdigit_char. by intros ->. Qed.

Lemma split_nonempty (sep : ascii) (s : string) : pystr.split sep s ≠ [].
Proof.
  destruct s as [|c s]; simpl; [done|].
  destruct (Ascii.eqb c sep); [done|]. by destruct (pystr.split sep s).
Qed.

Lemma split_one (sep : ascii) : ∀ s b : string, pystr.split sep s = [b] → s = b.
Proof.
  induction s as [|c s IH]; intros b; simpl.
  - by intros [= <-].
  - destruct (Ascii.eqb c sep).
    + intros [= _ H]. by apply split_nonempty in H.
    + destruct (pystr.split sep s) as [|h t] eqn:Hs; [by apply split_nonempty in Hs|].
      intros [= <- ->]. f_equal. by apply IH.
Qed.

(** Two pieces come from exactly one separator. *)
Lemma split_two (sep : ascii) : ∀ s a b : string,
  pystr.split sep s = [a; b] → s = a +:+ String sep b.
Proof.
  induction s as [|c s IH]; intros a b; simpl; [done|].
  destruct (Ascii.eqb_spec c sep) as [->|Hne].
  - intros [= <- H]. rewrite app_nil. f_equal. by apply split_one in H.
  - destruct (pystr.split sep s) as [|h t] eqn:Hs; [done|].
    intros [= <- ->]. rewrite app_cons. f_equal. by apply IH.
Qed.

Lemma split_year (y1 y2 y3 y4 d : ascii) :
  Ascii.eqb y1 "." = false → Ascii.eqb y2 "." = false →
  Ascii.eqb y3 "." = false → Ascii.eqb y4 "." = false →
  Ascii.eqb d "." = false →
  pystr.split "."
    (String y1 (String y2 (String y3 (String y4 (String "." (String d ""))))))
  = [String y1 (String y2 (String y3 (String y4 ""))); String d ""].
Proof. intros H1 H2 H3 H4 Hd. cbn [pystr.split]. by rewrite H1, H2, H3, H4, Hd. Qed.

Lemma isdigit_four (year : string) :
  pystr.isdigit year = true → String.length year = 4%nat →
  ∃ y1 y2 y3 y4,
    year = String y1 (String y2 (String y3 (String y4 ""))) ∧
    pystr.isdigit_char y1 = true ∧ pystr.isdigit_char y2 = true ∧
    pystr.isdigit_char y3 = true ∧ pystr.isdigit_char y4 = true.
Proof.
  destruct year as [|y1 [|y2 [|y3 [|y4 [|]]]]]; try done. intros H _.
  unfold pystr.isdigit in H. cbn [pystr.all_chars] in H.
  apply andb_true_iff in H as [H1 H]. apply andb_true_iff in H as [H2 H].
  apply andb_true_iff in H as [H3 H]. apply andb_true_iff in H as [H4 _].
  by exists y1, y2, y3, y4.
Qed.

Lemma prefix_zero (c : ascii) (s : string) :
  startswith (String c s) "0" = Ascii.eqb c "0".
Proof.
  unfold startswith. rewrite prefix_cons.
  destruct (ascii_dec "0" c) as [<-|Hne]; [by destruct s|].
  symmetry. apply Ascii.eqb_neq. congruence.
Qed.

(** X5: [validate_semester_format] returns, and then returns its
    argument, exactly for the strings made of four digits of which the
    first is not "0", a dot, and one digit that is not "0"; a digit is
    what [str.isdigit] accepts. *)
Theorem validate_semester_format_accepts_iff (semester r : string) :
  schemas.validate_semester_format semester = Valid r ↔
  r = semester ∧
  ∃ y1 y2 y3 y4 d : ascii,
    semester
      = String y1 (String y2 (String y3 (String y4 (String "." (String d ""))))) ∧
    pystr.isdigit_char y1 = true ∧ pystr.isdigit_char y2 = true ∧
    pystr.isdigit_char y3 = true ∧ pystr.isdigit_char y4 = true ∧
    pystr.isdigit_char d = true ∧ y1 ≠ "0"%char ∧ d ≠ "0"%char.
Proof.
  split.
  - unfold schemas.validate_semester_format.
    destruct (pystr.split "." semester) as [|year [|semester_num [|]]] eqn:Hs;
      try done.
    apply split_two in Hs.
    destruct (pystr.isdigit year) eqn:Hy; [|done].
    destruct (Nat.eqb_spec (String.length year) 4) as [L4|]; [|done].
    cbn [negb orb].
    destruct (isdigit_four year Hy L4) as (y1 & y2 & y3 & y4 & -> & H1 & H2 & H3 & H4).
    rewrite prefix_zero. destruct (Ascii.eqb_spec y1 "0") as [|Hy1]; [done|].
    destruct (pystr.isdigit semester_num) eqn:Hd; [|done].
    destruct (Nat.eqb_spec (String.length semester_num) 1) as [L1|]; [|done].
    destruct semester_num as [|d [|]]; try done.
    cbn [negb orb]. destruct (String.eqb_spec (String d "") "0") as [|Hd0]; [done|].
    intros [= <-]. split; [done|]. exists y1, y2, y3, y4, d.
    unfold pystr.isdigit in Hd. cbn [pystr.all_chars] in Hd.
    apply andb_true_iff in Hd as [Hd _].
    repeat split; try done. congruence.
  - intros (-> & y1 & y2 & y3 & y4 & d & -> & H1 & H2 & H3 & H4 & Hd & Hy1 & Hd0).
    unfold schemas.validate_semester_format.
    rewrite split_year by by apply isdigit_char_not_dot.
    unfold pystr.isdigit. cbn [pystr.all_chars String.length].
    rewrite H1, H2, H3, H4, Hd. cbn [andb negb orb Nat.eqb].
    rewrite prefix_zero. destruct (Ascii.eqb_spec y1 "0") as [|_]; [done|].
    destruct (String.eqb_spec (String d "") "0") as [[= ?]|_]; done.
Qed.

Lemma match_atoms_semester (v : string) (rest : string) :
  schemas.match_atoms schemas.semester_re v = Some rest ↔
  ∃ y1 y2 y3 y4 d : ascii,
    v = String y1 (String y2 (String y3 (String y4 (String "." (String d rest))))) ∧
    pystr.is_decimal y1 = true ∧ pystr.is_decimal y2 = true ∧
    pystr.is_decimal y3 = true ∧ pystr.is_decimal y4 = true ∧
    pystr.is_decimal d = true.
Proof.
  unfold schemas.semester_re. split.
  - destruct v as [|y1 [|y2 [|y3 [|y4 [|dot [|d rest']]]]]];
      cbn [schemas.match_atoms]; try done;
      repeat (match goal with
              | |- context [if ?b then _ else _] => destruct b eqn:?; [|done]
              end); try done.
    intros [= <-]. exists y1, y2, y3, y4, d.
    match goal with H : Ascii.eqb dot "." = true |- _ =>
      apply Ascii.eqb_eq in H as -> end.
    by repeat split.
  - intros (y1 & y2 & y3 & y4 & d & -> & H1 & H2 & H3 & H4 & Hd).
    cbn [schemas.match_atoms]. by rewrite H1, H2, H3, H4, Hd, Ascii.eqb_refl.
Qed.

Lemma at_end_iff (rest : string) :
  schemas.at_end rest = true ↔ rest = "" ∨ rest = String (ascii_of_nat 10) "".
Proof.
  destruct rest as [|c [|]]; simpl.
  - naive_solver.
  - destruct (Ascii.eqb_spec c (ascii_of_nat 10)) as [->|Hne].
    + split; [by right|done].
    + split; [done|]. intros [|[= ?]]; done.
  - split; [done|]. by intros [|].
Qed.

(** X6: the validator of [EnrollmentDeleteFormData] returns, and then
    returns its argument, exactly for four decimal digits, a dot and one
    decimal digit, optionally followed by one newline: [$] also matches
    before a final newline. *)
Theorem delete_validate_semester_accepts_iff (v r : string) :
  schemas.delete_validate_semester v = Valid r ↔
  r = v ∧
  ∃ (y1 y2 y3 y4 d : ascii) (rest : string),
    v = String y1 (String y2 (String y3 (String y4 (String "." (String d rest))))) ∧
    pystr.is_decimal y1 = true ∧ pystr.is_decimal y2 = true ∧
    pystr.is_decimal y3 = true ∧ pystr.is_decimal y4 = true ∧
    pystr.is_decimal d = true ∧
    (rest = "" ∨ rest = String (ascii_of_nat 10) "").
Proof.
  unfold schemas.delete_validate_semester, schemas.re_match.
  destruct (schemas.match_atoms schemas.semester_re v) as [rest|] eqn:Hm.
  - apply match_atoms_semester in Hm
      as (y1 & y2 & y3 & y4 & d & -> & H1 & H2 & H3 & H4 & Hd).
    destruct (schemas.at_end rest) eqn:He; cbn [negb].
    + apply at_end_iff in He. split.
      * intros [= <-]. split; [done|]. by exists y1, y2, y3, y4, d, rest.
      * by intros [-> _].
    + split; [done|].
      intros (_ & z1 & z2 & z3 & z4 & e & rest' & [= -> -> -> -> -> ->] & _ & _ & _ & _ & _ & Hr).
      apply at_end_iff in Hr. congruence.
  - cbn [negb]. split; [done|].
    intros (_ & z1 & z2 & z3 & z4 & e & rest' & -> & H1 & H2 & H3 & H4 & Hd & _).
    assert (schemas.match_atoms schemas.semester_re
              (String z1 (String z2 (String z3 (String z4 (String "." (String e rest'))))))
            = Some rest') as Hm'.
    { apply match_atoms_semester. by exists z1, z2, z3, z4, e. }
    congruence.
Qed.

(** The validator of [EnrollmentUpdateFormData] lets a missing and
    an empty semester through unchecked, and treats every other value as
    the validator of [EnrollmentDeleteFormData] does. *)
Lemma update_validate_semester_lenient (v : option string) :
  schemas.update_validate_semester v =
  match v with
  | None => Valid None
  | Some "" => Valid (Some "")
  | Some s =>
      match schemas.delete_validate_semester s with
      | Valid s' => Valid (Some s')
      | ValueError msg => ValueError msg
      end
  end.
Proof.
  destruct v as [[|c s]|]; try done.
  unfold schemas.update_validate_semester, schemas.delete_validate_semester.
  by destruct (schemas.re_match schemas.semester_re (String c s)).
Qed.

(** X7: on four decimal digits, a dot and a decimal digit the two
    families of forms disagree: the enrollment validator accepts all of
    them, [validate_semester_format] only those whose year does not start
    with "0" and whose semester is not "0". *)
Theorem semester_validators_disagree (y1 y2 y3 y4 d : ascii) :
  pystr.is_decimal y1 = true → pystr.is_decimal y2 = true →
  pystr.is_decimal y3 = true → pystr.is_decimal y4 = true →
  pystr.is_decimal d = true →
  let s := String y1 (String y2 (String y3 (String y4 (String "." (String d ""))))) in
  schemas.delete_validate_semester s = Valid s ∧
  (schemas.validate_semester_format s = Valid s ↔ y1 ≠ "0"%char ∧ d ≠ "0"%char).
Proof.
  intros H1 H2 H3 H4 Hd s. split.
  - unfold schemas.delete_validate_semester, schemas.re_match.
    assert (schemas.match_atoms schemas.semester_re s = Some "") as ->; [|done].
    apply match_atoms_semester. by exists y1, y2, y3, y4, d.
  - unfold schemas.validate_semester_format. subst s.
    rewrite split_year by by apply isdigit_char_not_dot, is_decimal_isdigit.
    unfold pystr.isdigit. cbn [pystr.all_chars String.length].
    rewrite !is_decimal_isdigit by done. cbn [andb negb orb Nat.eqb].
    rewrite prefix_zero.
    destruct (Ascii.eqb_spec y1 "0") as [->|Hy1]; [by split; [|intros [? _]]|].
    destruct (String.eqb_spec (String d "") "0") as [[= ->]|Hd0].
    + by split; [|intros [_ ?]].
    + split; [|done]. intros _. split; [done|]. congruence.
Qed.

End semester.

(** * More on the tokens, the guard and the routes *)
Section tokens.
Context (self : AuthHandler) (local : localtime).

(** X8: the two kinds of issued token do not stand in for each other:
    at every instant [decode_refresh_token] refuses an authorization
    token and [decode_access_token] refuses a session token, with
    "Signature has expired" once the token has expired and with
    "Invalid token" before. *)
Theorem issued_kinds_do_not_mix (user_data : dict) (now now' : Z) (u : N) :
  decode_refresh_token self (encode_token self user_data "access_token" now u) now'
    = Raise (if timegm (now + minutes 60) * jwt.usec <=? now'
             then Signature_has_expired else Invalid_token) ∧
  decode_access_token self (encode_token self user_data "refresh_token" now u) now'
    = Raise (if timegm (now + hours 720) * jwt.usec <=? now'
             then Signature_has_expired else Invalid_token).
Proof.
  split.
  - set (p := claims_of (encode_token self user_data "access_token" now u)).
    destruct (encode_token_claims self user_data "access_token" now u p _
                eq_refl eq_refl) as (Hsub & _ & Hr & Hexp & _).
    change (String.eqb "access_token" "access_token") with true in *.
    rewrite encode_token_signed. fold p. unfold decode_refresh_token.
    rewrite decode_signed, Hexp.
    destruct (timegm (now + minutes 60) * jwt.usec <=? now'); [done|].
    cbn [rbind]. rewrite (dict_in_true _ _ _ Hsub). cbn [negb].
    unfold subscript. by rewrite Hr.
  - set (p := claims_of (encode_token self user_data "refresh_token" now u)).
    destruct (encode_token_claims self user_data "refresh_token" now u p _
                eq_refl eq_refl) as (Hsub & _ & Hr & Hexp & _).
    change (String.eqb "refresh_token" "access_token") with false in *.
    rewrite encode_token_signed. fold p. unfold decode_access_token.
    rewrite decode_signed, Hexp.
    destruct (timegm (now + hours 720) * jwt.usec <=? now'); [done|].
    cbn [rbind]. rewrite (dict_in_true _ _ _ Hsub). cbn [negb].
    unfold subscript. by rewrite Hr.
Qed.

(** X9: a token string that was not signed under the handler's secret,
    be it no JWS at all or a JWS signed under another key, is refused
    with "Invalid token" by both decoders, whatever its claims and its
    [exp] are; and the guard refuses a request whose session cookie is
    such a string without consulting the store. *)
Theorem foreign_tokens_are_invalid (tok : token) (now : Z) :
  (∀ p, tok ≠ jwt.Jws (secret self) p) →
  decode_access_token self tok now = Raise Invalid_token ∧
  decode_refresh_token self tok now = Raise Invalid_token ∧
  ∀ request auth s,
    cookie request "session-token" = Some tok →
    auth_user self request auth now s = (Raise Invalid_token, s).
Proof.
  intros Hforeign.
  assert (∃ msg, jwt.decode tok (secret self) now = Raise (InvalidTokenError msg))
    as [msg Hd].
  { destruct tok as [raw|k p]; simpl; [eauto|].
    destruct (String.eqb_spec k (secret self)) as [->|_]; simpl; [|eauto].
    by destruct (Hforeign p). }
  assert (decode_refresh_token self tok now = Raise Invalid_token) as Hr.
  { unfold decode_refresh_token. by rewrite Hd. }
  split; [|split; [done|]].
  - unfold decode_access_token. by rewrite Hd.
  - intros request auth s Hc. rewrite (auth_user_session _ _ _ _ _ _ Hc).
    by rewrite (verify_refresh_token_undecoded _ _ _ _ _ Hr).
Qed.

Lemma whole_seconds_gt (a : Z) : 0 ≤ a → a - jwt.usec < (a ÷ jwt.usec) * jwt.usec.
Proof.
  intros Ha. rewrite Z.quot_div_nonneg by done.
  pose proof (Z.mod_pos_bound a jwt.usec eq_refl) as Hm.
  pose proof (Z.div_mod a jwt.usec) as Hdm.
  unfold jwt.usec in *. lia.
Qed.

(** X10: the marker a successful logout writes has the value
    "<sub>:<is_active>" and lives for at least a second, and no other
    key of the store changes.  When the naive local times of [exp] and
    of the logout are less than 2^34 seconds apart, the marker expires
    within the last second before [exp] shifted by the change of the
    local UTC offset between the logout and [exp]: never after the token
    when the offset is the same at both, and as much earlier or later
    than the token as the offset has changed otherwise. *)
Theorem marker_expires_with_token (tok : token) (now : Z) (s s1 : Redis.db)
    (uid : pyval) :
  lock_refresh_token self local tok now s = (Return uid, s1) →
  ∃ p exp e,
    decode_refresh_token self tok now = Return p ∧
    p !! "exp" = Some (VInt exp) ∧
    Redis.data s1 !! marker_key p = Some e ∧
    Redis.value e = marker_value p ∧
    now + jwt.usec ≤ Redis.expire_at e ∧
    (exp * jwt.usec - now + offset_change local now exp < exact_span →
     exp * jwt.usec + offset_change local now exp - jwt.usec < Redis.expire_at e
     ∧ Redis.expire_at e ≤ exp * jwt.usec + offset_change local now exp) ∧
    (offset_change local now exp = 0 →
     exp * jwt.usec - now < exact_span →
     exp * jwt.usec - jwt.usec < Redis.expire_at e ≤ exp * jwt.usec) ∧
    ∀ k, k ≠ marker_key p → Redis.data s1 !! k = Redis.data s !! k.
Proof.
  intros (p & ttl & Hd & Hl & Hr & Httl & -> & ->)%lock_refresh_token_Return_inv.
  apply lockable_parts in Hl as (_ & _ & Hexp & _).
  destruct (lockable_exp _ _ _ _ Hd Hexp) as (exp & Hp & Hg & Hfut).
  rewrite Hg in Hr. apply remaining_seconds_Return_inv in Hr.
  remember (exp * jwt.usec - now + offset_change local now exp) as left eqn:El.
  assert (0 < left) as Hpos by (apply int_total_seconds_pos; lia).
  assert (left < exact_span →
          left - jwt.usec < ttl * jwt.usec ∧ ttl * jwt.usec ≤ left) as Hwhole.
  { intros Hspan. rewrite Hr, int_total_seconds_exact by lia.
    pose proof (whole_seconds_le left). pose proof (whole_seconds_gt left). lia. }
  eexists p, exp, _. split; [done|]. split; [done|].
  split; [apply lookup_insert_eq|]. split; [done|]. simpl.
  split; [unfold jwt.usec in *; lia|]. split; [|split].
  - intros Hspan. destruct Hwhole as [? ?]; lia.
  - intros Hsame Hspan. rewrite Hsame in El.
    destruct Hwhole as [? ?]; lia.
  - intros k Hk. by rewrite lookup_insert_ne.
Qed.

(** The routes [refresh_login_user] and [logout_user] start alike. *)
Lemma route_undecoded (request : Request) (db : users.MongoDb) (now : Z) (u : N)
    (s : Redis.db) (tok : token) (e : exn) :
  cookie request "session-token" = Some tok →
  decode_refresh_token self tok now = Raise e →
  users.refresh_login_user self request db now u s
    = (Raise (HTTPException HTTP_500_INTERNAL_SERVER_ERROR
                ("Internal server error: " +:+ exn_str e)), s) ∧
  users.logout_user self local request db now s
    = (Raise (HTTPException HTTP_500_INTERNAL_SERVER_ERROR
                ("Internal server error: " +:+ exn_str e)), s).
Proof.
  intros Hc Hd. split.
  - unfold users.refresh_login_user, users.except_Exception.
    rewrite Hc. unfold bind at 1, lift. by rewrite Hd.
  - unfold users.logout_user, users.except_Exception.
    rewrite Hc. unfold bind at 1.
    by rewrite (lock_refresh_token_undecoded _ _ _ _ _ _ Hd).
Qed.

(** X11: a session cookie that has expired does not give a 401 on the
    refresh and logout routes: the decoder's 401 is caught by the route's
    own handler and comes out as a 500 whose detail quotes it; the store
    is not touched. *)
Theorem expired_session_is_a_500 (request : Request) (db : users.MongoDb)
    (now : Z) (u : N) (s : Redis.db) (p : dict) (exp : Z) :
  cookie request "session-token" = Some (jwt.encode p (secret self)) →
  p !! "exp" = Some (VInt exp) → exp * jwt.usec ≤ now →
  users.refresh_login_user self request db now u s
    = (Raise (HTTPException HTTP_500_INTERNAL_SERVER_ERROR
                "Internal server error: 401: Signature has expired"), s) ∧
  users.logout_user self local request db now s
    = (Raise (HTTPException HTTP_500_INTERNAL_SERVER_ERROR
                "Internal server error: 401: Signature has expired"), s).
Proof.
  intros Hc Hexp Hnow.
  apply (route_undecoded request db now u s _ Signature_has_expired Hc).
  unfold decode_refresh_token. rewrite decode_signed, Hexp.
  by destruct (Z.leb_spec (exp * jwt.usec) now); [|lia].
Qed.

(** X12: the logout route revokes before it looks the user up: for a
    session token that [lock_refresh_token] accepts, with an integer
    [exp] for which the TTL between the naive local times of [exp] and
    of the logout is computed and is at least one, the marker is written
    with that TTL whatever the route then reports, 200 when the subject
    is an active user, 403 when there is no such user, and a 500 that
    quotes the error of [ObjectId] when the subject is no ObjectId. *)
Theorem logout_user_revokes_first (request : Request) (db : users.MongoDb)
    (now : Z) (s : Redis.db) (tok : token) (p : dict) (exp ttl : Z) :
  cookie request "session-token" = Some tok →
  decode_refresh_token self tok now = Return p →
  lockable p = true →
  p !! "exp" = Some (VInt exp) →
  Redis.outage s = None →
  remaining_seconds local (VInt exp) now = Return ttl →
  1 ≤ ttl →
  let s1 := Redis.Db None
              (<[marker_key p := Redis.Entry (marker_value p) (now + ttl * jwt.usec)]>
                 (Redis.data s)) in
  users.logout_user self local request db now s =
    match users.ObjectId (dict_get "sub" p) with
    | Return oid =>
        match users.find_one_active db oid with
        | Some _ =>
            (Return (users.Response HTTP_200_OK
                       (users.detail "User logout successfully")), s1)
        | None =>
            (Return (users.Response HTTP_403_FORBIDDEN
                       (users.detail "Unauthorized - invalid user")), s1)
        end
    | Raise e =>
        (Raise (HTTPException HTTP_500_INTERNAL_SERVER_ERROR
                  ("Internal server error: " +:+ exn_str e)), s1)
    end.
Proof.
  intros Hc Hd Hl Hexp Hout Hr Httl s1.
  assert (lock_refresh_token self local tok now s
          = (Return (dict_get "sub" p), s1)) as Hlock.
  { rewrite (lock_refresh_token_decoded _ _ _ _ _ _ Hd), Hl. cbn [negb].
    unfold dict_get at 1. rewrite Hexp. cbn [default from_option id].
    rewrite Hr. by rewrite setex_run. }
  unfold users.logout_user, users.except_Exception.
  rewrite Hc. unfold bind, lift. rewrite Hlock.
  destruct (users.ObjectId (dict_get "sub" p)) as [oid|e]; [|done].
  by destruct (users.find_one_active db oid).
Qed.

(** X13: the Session Guard and the refresh route only read the store:
    whatever the request and whatever they answer, the store is the same
    afterwards. *)
Theorem guard_and_refresh_only_read (request : Request)
    (auth : HTTPAuthorizationCredentials) (db : users.MongoDb) (now : Z) (u : N)
    (s : Redis.db) :
  (auth_user self request auth now s).2 = s ∧
  (users.refresh_login_user self request db now u s).2 = s.
Proof.
  split.
  - unfold auth_user. destruct (cookie request "session-token") as [tok|]; [|done].
    unfold bind, lift. pose proof (verify_refresh_token_store self tok now s) as Hv.
    by destruct (verify_refresh_token self tok now s) as [[[]|e] s'].
  - unfold users.refresh_login_user, users.except_Exception.
    destruct (cookie request "session-token") as [tok|]; [|done].
    unfold bind, lift.
    destruct (decode_refresh_token self tok now) as [p|e]; [|done].
    destruct (negb (truthy (dict_get "sub" p)) || negb (truthy (dict_get "id" p)));
      [done|].
    destruct (RedisClient.encode_key (dict_get "id" p)) as [key|e]; [|done].
    unfold RedisClient.get, RedisClient.guard.
    destruct (Redis.outage s); [done|].
    destruct (bytes_truthy (Redis.lookup_live now key s)); [done|].
    destruct (users.ObjectId (dict_get "sub" p)) as [oid|e]; [|done].
    by destruct (users.find_one_active db oid).
Qed.

End tokens.

(** ** The decorators of [src/utils.py] *)
Section decorators.
Context (self : AuthHandler) {A R : Type}.

Lemma user_payload_flags (I : users.user_doc) :
  dict_get_or "is_active" (VBool false) (users.user_payload I)
    = VBool (users.is_active I) ∧
  dict_get_or "admin" (VBool false) (users.user_payload I) = VBool (users.admin I).
Proof. unfold dict_get_or, users.user_payload. split; by simplify_map_eq. Qed.

Lemma encode_token_admin (user_data : dict) (type : string) (now : Z) (u : N) :
  claims_of (encode_token self user_data type now u) !! "admin"
  = Some (dict_get_or "admin" (VBool false) user_data).
Proof.
  unfold encode_token, jwt.encode, claims_of.
  destruct (String.eqb type "access_token"); by simplify_map_eq.
Qed.

(** X14: a request that passes the Session Guard with an authorization
    token issued to the user [I] reaches a route behind
    [require_active_user] exactly when [I] was active when the token was
    issued, and a route behind [require_admin_active] exactly when [I]
    was also an administrator; otherwise the answer is 403
    "Unauthorized", the route is not run and the store is unchanged. *)
Theorem decorators_follow_issued_claims (func : utils.kwargs A → M R)
    (request : Request) (args : A) (tok : token) (I : users.user_doc)
    (now now' : Z) (ua : N) (s : Redis.db) :
  cookie request "session-token" = Some tok →
  verify_refresh_token self tok now' s = (Return tt, s) →
  now' < timegm (now + minutes 60) * jwt.usec →
  let access_token := encode_token self (users.user_payload I) "access_token" now ua in
  let kw := utils.Kwargs (Some (claims_of access_token)) args in
  Depends_auth_user self (utils.require_active_user func) request
      (bearer access_token) args now' s
    = (if users.is_active I
       then (r <- func kw ;; ret (inr r)) s
       else (Return (inl utils.Unauthorized), s)) ∧
  Depends_auth_user self (utils.require_admin_active func) request
      (bearer access_token) args now' s
    = (if users.is_active I && users.admin I
       then (r <- func kw ;; ret (inr r)) s
       else (Return (inl utils.Unauthorized), s)).
Proof.
  intros Hc Hv Hlt access_token kw.
  assert (auth_user self request (bearer access_token) now' s
          = (Return (claims_of access_token), s)) as Hauth.
  { rewrite (auth_user_session _ _ _ _ _ _ Hc), Hv. f_equal.
    exact (decode_issued self _ "access_token" now now' ua Hlt). }
  destruct (encode_token_claims self (users.user_payload I) "access_token" now ua
              (claims_of access_token) _ eq_refl eq_refl) as (_ & _ & _ & _ & Hact).
  pose proof (encode_token_admin (users.user_payload I) "access_token" now ua) as Hadm.
  fold access_token in Hadm.
  destruct (user_payload_flags I) as [Ea Eb]. rewrite Ea in Hact. rewrite Eb in Hadm.
  assert (dict_get "is_active" (claims_of access_token) = VBool (users.is_active I)) as Ga.
  { unfold dict_get. by rewrite Hact. }
  assert (dict_get "admin" (claims_of access_token) = VBool (users.admin I)) as Gb.
  { unfold dict_get. by rewrite Hadm. }
  unfold Depends_auth_user. unfold bind at 1 3. rewrite Hauth.
  unfold utils.require_active_user, utils.require_admin_active.
  cbn [utils.user_data default from_option id]. fold kw. rewrite Ga, Gb. cbn [truthy].
  split.
  - by destruct (users.is_active I).
  - by destruct (users.is_active I), (users.admin I).
Qed.

End decorators.

(** * Login *)
Section login.
Context (checkpw : string → string → result bool) (self : AuthHandler)
  (local : localtime).

Lemma find_one_by_name_Some (db : users.MongoDb) (n : string) (user : users.user_doc) :
  login.find_one_by_name db n = Some user →
  In user (users.users db) ∧ users.name user = n ∧ users.is_active user = true.
Proof.
  unfold login.find_one_by_name. intros [Hin Hp]%List.find_some.
  apply andb_true_iff in Hp as [Hn Ha]. by apply String.eqb_eq in Hn.
Qed.

Lemma find_one_active_In (db : users.MongoDb) (user : users.user_doc) :
  In user (users.users db) → users.is_active user = true →
  is_Some (users.find_one_active db (users._id user)).
Proof.
  intros Hin Ha. unfold users.find_one_active.
  destruct (List.find _ (users.users db)) as [u|] eqn:Hf; [eauto|].
  pose proof (List.find_none _ _ Hf user Hin) as Hp. simpl in Hp.
  by rewrite String.eqb_refl, Ha in Hp.
Qed.

(** X15: a login that fails leaves no trace: when no active user has
    the name (an inactive user counts as unknown) the answer is 401 "User
    not found", when the password does not check it is 401 "Username or
    password not valid"; in both cases no cookie is set and the store is
    neither read nor changed, reachable or not. *)
Theorem failed_login_leaves_no_trace (data : login.UserLoginFormData)
    (db : users.MongoDb) (now : Z) (ua ur : N) (s : Redis.db) :
  ((∀ u, In u (users.users db) → users.name u = login.name data →
         users.is_active u = false) →
   login.login_user checkpw self data db now ua ur s
     = (Return (login.Reply HTTP_401_UNAUTHORIZED
                  (users.detail "User not found") None), s)) ∧
  (∀ user,
     login.find_one_by_name db (login.name data) = Some user →
     checkpw (login.password data) (users.password user) = Return false →
     login.login_user checkpw self data db now ua ur s
       = (Return (login.Reply HTTP_401_UNAUTHORIZED
                    (users.detail "Username or password not valid") None), s)).
Proof.
  split.
  - intros Hnone. unfold login.login_user, users.except_Exception.
    destruct (login.find_one_by_name db (login.name data)) as [user|] eqn:Hf; [|done].
    apply find_one_by_name_Some in Hf as (Hin & Hn & Ha).
    rewrite (Hnone user Hin Hn) in Ha. done.
  - intros user Hf Hpw. unfold login.login_user, users.except_Exception.
    rewrite Hf. unfold bind, lift, login.verify_password. by rewrite Hpw.
Qed.

(** The session token of an issued pair passes the guard as long as no
    marker lives under its id. *)
Lemma issued_pair_admitted (user_data : dict) (now now' : Z) (ua ur : N)
    (s : Redis.db) :
  Redis.outage s = None →
  Redis.lookup_live now' ("token:" +:+ uuid.hex ur) s = None →
  now' < timegm (now + minutes 60) * jwt.usec →
  auth_user self
      (with_session (encode_token self user_data "refresh_token" now ur))
      (bearer (encode_token self user_data "access_token" now ua)) now' s
    = (Return (claims_of (encode_token self user_data "access_token" now ua)), s).
Proof.
  intros Hout Hfresh Hlt.
  set (rt := encode_token self user_data "refresh_token" now ur).
  destruct (encode_token_claims self user_data "refresh_token" now ur
              (claims_of rt) _ eq_refl eq_refl) as (_ & Hid & _).
  assert (decode_refresh_token self rt now' = Return (claims_of rt)) as Hd.
  { apply (decode_issued self _ "refresh_token" now now' ur). simpl.
    assert (timegm (now + minutes 60) ≤ timegm (now + hours 720)) as Hm.
    { apply timegm_mono. unfold minutes, hours, jwt.usec. lia. }
    unfold jwt.usec in *. lia. }
  assert (dict_get "id" (claims_of rt) = VStr (uuid.hex ur)) as Hget.
  { unfold dict_get. by rewrite Hid. }
  rewrite (auth_user_session self _ _ rt) by by apply cookie_with_session.
  rewrite (verify_refresh_token_decoded _ _ _ _ _ Hd).
  unfold marker_key. rewrite Hget, uuid_hex_truthy. cbn [negb py_str].
  rewrite get_run by done. rewrite Hfresh. cbn [bytes_truthy].
  f_equal. exact (decode_issued self _ "access_token" now now' ua Hlt).
Qed.

Lemma login_user_checked (data : login.UserLoginFormData) (db : users.MongoDb)
    (now : Z) (ua ur : N) (s : Redis.db) (user : users.user_doc) :
  login.find_one_by_name db (login.name data) = Some user →
  checkpw (login.password data) (users.password user) = Return true →
  login.login_user checkpw self data db now ua ur s =
    match encode_login_token self (users.user_payload user) now ua ur s with
    | (Return (access_token, refresh_token), s') =>
        (Return (login.Reply login.HTTP_201_CREATED (users.token_body access_token)
                   (Some refresh_token)), s')
    | (Raise e, s') =>
        (Raise (HTTPException HTTP_500_INTERNAL_SERVER_ERROR
                  ("Internal server error: " +:+ exn_str e)), s')
    end.
Proof.
  intros Hf Hpw. unfold login.login_user, users.except_Exception.
  rewrite Hf. unfold bind, lift, login.verify_password. rewrite Hpw. cbn [negb].
  by destruct (encode_login_token self (users.user_payload user) now ua ur s)
    as [[[at_ rt]|e] s'].
Qed.

(** X16: a login with the right password of an active user, on a
    reachable store, answers 201 with an authorization token in the body
    and a session token in the cookie, both carrying the user's id as
    [sub]; when no marker lived under the new session token's id, the
    Session Guard admits the pair from then until the authorization
    token expires. *)
Theorem login_issues_admitted_pair (data : login.UserLoginFormData)
    (db : users.MongoDb) (now now' : Z) (ua ur : N) (s : Redis.db)
    (user : users.user_doc) :
  login.find_one_by_name db (login.name data) = Some user →
  checkpw (login.password data) (users.password user) = Return true →
  Redis.outage s = None →
  Redis.lookup_live now ("token:" +:+ uuid.hex ur) s = None →
  now ≤ now' < timegm (now + minutes 60) * jwt.usec →
  ∃ access_token refresh_token s',
    login.login_user checkpw self data db now ua ur s
      = (Return (login.Reply login.HTTP_201_CREATED (users.token_body access_token)
                   (Some refresh_token)), s') ∧
    dict_get "sub" (claims_of access_token) = VStr (users._id user) ∧
    dict_get "sub" (claims_of refresh_token) = VStr (users._id user) ∧
    auth_user self (with_session refresh_token) (bearer access_token) now' s'
      = (Return (claims_of access_token), s').
Proof.
  intros Hf Hpw Hout Hfresh [Hle Hlt].
  destruct (encode_login_token_run self (users.user_payload user) now ua ur s Hout)
    as (s' & Hrun & Hout' & Hdata).
  eexists _, _, s'. split.
  { rewrite (login_user_checked _ _ _ _ _ _ _ Hf Hpw). by rewrite Hrun. }
  split.
  { destruct (encode_token_claims self (users.user_payload user) "access_token" now ua
                _ _ eq_refl eq_refl) as (Hsub & _).
    unfold dict_get at 1. rewrite Hsub. apply user_payload_id. }
  split.
  { destruct (encode_token_claims self (users.user_payload user) "refresh_token" now ur
                _ _ eq_refl eq_refl) as (Hsub & _).
    unfold dict_get at 1. rewrite Hsub. apply user_payload_id. }
  apply issued_pair_admitted; try done.
  unfold Redis.lookup_live at 1. rewrite Hdata.
  destruct (Redis.glob "token:*" _ && references now _ s _); [done|].
  by apply (lookup_live_later now now').
Qed.

(** X17: when the store cannot be reached, a login with the right
    password fails with a 500 that quotes the connection error: no token
    is issued and no cookie is set. *)
Theorem login_needs_the_store (data : login.UserLoginFormData)
    (db : users.MongoDb) (now : Z) (ua ur : N) (s : Redis.db)
    (user : users.user_doc) (msg : string) :
  login.find_one_by_name db (login.name data) = Some user →
  checkpw (login.password data) (users.password user) = Return true →
  Redis.outage s = Some msg →
  login.login_user checkpw self data db now ua ur s
    = (Raise (HTTPException HTTP_500_INTERNAL_SERVER_ERROR
                ("Internal server error: " +:+ msg)), s).
Proof.
  intros Hf Hpw Hout. rewrite (login_user_checked _ _ _ _ _ _ _ Hf Hpw).
  unfold encode_login_token, bind. by rewrite (scan_iter_outage _ _ msg).
Qed.

Lemma object_id_truthy (s oid : string) :
  users.ObjectId (VStr s) = Return oid → truthy (VStr s) = true.
Proof. by destruct s. Qed.

(** X18: login, logout, request.  After a successful login, a logout
    with the session cookie that login set, made before the token
    expires and with a TTL of at least one second between the naive
    local times of the expiry and of the logout, answers 200 and leaves
    the marker of the session token, with that TTL, in the store; from
    then until the marker lapses or the token expires, whichever comes
    first, the Session Guard refuses that cookie with "Token locked",
    whatever authorization token comes with it. *)
Theorem login_logout_locks (data : login.UserLoginFormData) (db : users.MongoDb)
    (t0 t1 : Z) (ua ur : N) (s : Redis.db) (user : users.user_doc) (ttl : Z) :
  login.find_one_by_name db (login.name data) = Some user →
  checkpw (login.password data) (users.password user) = Return true →
  users.ObjectId (VStr (users._id user)) = Return (users._id user) →
  Redis.outage s = None →
  0 ≤ t0 ≤ t1 →
  t1 < timegm (t0 + hours 720) * jwt.usec →
  remaining_seconds local (VInt (timegm (t0 + hours 720))) t1 = Return ttl →
  1 ≤ ttl →
  ∃ access_token refresh_token s1,
    login.login_user checkpw self data db t0 ua ur s
      = (Return (login.Reply login.HTTP_201_CREATED (users.token_body access_token)
                   (Some refresh_token)), s1) ∧
    let p := claims_of refresh_token in
    let s2 := Redis.Db None
                (<[marker_key p :=
                     Redis.Entry (marker_value p) (t1 + ttl * jwt.usec)]>
                   (Redis.data s1)) in
    users.logout_user self local (with_session refresh_token) db t1 s1
      = (Return (users.Response HTTP_200_OK
                   (users.detail "User logout successfully")), s2) ∧
    ∀ auth t2,
      t1 ≤ t2 → t2 < t1 + ttl * jwt.usec →
      t2 < timegm (t0 + hours 720) * jwt.usec →
      auth_user self (with_session refresh_token) auth t2 s2
        = (Raise Token_locked, s2).
Proof.
  intros Hf Hpw Hoid Hout [H0 H01] Hleft Hr Httl.
  destruct (find_one_by_name_Some _ _ _ Hf) as (Hin & _ & Hact).
  destruct (encode_login_token_run self (users.user_payload user) t0 ua ur s Hout)
    as (s1 & Hrun & Hout1 & _).
  set (rt := encode_token self (users.user_payload user) "refresh_token" t0 ur).
  set (exp := timegm (t0 + hours 720)) in *.
  set (p := claims_of rt).
  destruct (encode_token_claims self (users.user_payload user) "refresh_token" t0 ur
              p _ eq_refl eq_refl) as (Hsub & Hid & _ & Hexp & Hia).
  change (String.eqb "refresh_token" "access_token") with false in Hexp.
  change (p !! "exp" = Some (VInt exp)) in Hexp.
  rewrite user_payload_id in Hsub.
  destruct (user_payload_flags user) as [Ea _].
  rewrite Ea, Hact in Hia.
  assert (decode_refresh_token self rt t1 = Return p) as Hd.
  { by apply (decode_issued self _ "refresh_token" t0 t1 ur). }
  assert (0 < exp) as Hpos by (unfold jwt.usec in *; lia).
  assert (lockable p = true) as Hl.
  { unfold lockable, dict_get. rewrite Hsub, Hid, Hexp, Hia.
    cbn [default from_option id].
    rewrite (object_id_truthy _ _ Hoid), uuid_hex_truthy. cbn [truthy andb].
    by destruct (Z.eqb_spec exp 0); [lia|]. }
  set (s2 := Redis.Db None
               (<[marker_key p := Redis.Entry (marker_value p) (t1 + ttl * jwt.usec)]>
                  (Redis.data s1))).
  assert (lock_refresh_token self local rt t1 s1
          = (Return (VStr (users._id user)), s2)) as Hlock.
  { rewrite (lock_refresh_token_decoded _ _ _ _ _ _ Hd), Hl. cbn [negb].
    unfold dict_get. rewrite Hexp, Hsub. cbn [default from_option id].
    rewrite Hr. by rewrite setex_run. }
  exists (encode_token self (users.user_payload user) "access_token" t0 ua), rt, s1.
  split; [|split].
  - rewrite (login_user_checked _ _ _ _ _ _ _ Hf Hpw). by rewrite Hrun.
  - unfold users.logout_user, users.except_Exception.
    rewrite cookie_with_session by done.
    unfold bind, lift. rewrite Hlock, Hoid.
    by destruct (find_one_active_In db user Hin Hact) as [u' ->].
  - intros auth t2 H12 Hlt Hlive.
    apply (marker_found_is_locked self (with_session rt) auth rt t2 p).
    + by apply cookie_with_session.
    + by eapply decode_refresh_token_later.
    + unfold dict_get. rewrite Hid. apply uuid_hex_truthy.
    + done.
    + by apply marker_is_live.
Qed.

Lemma prefix_app (a b : string) : String.prefix a (a +:+ b) = true.
Proof.
  induction a as [|c a IH]; [by destruct b|].
  rewrite app_cons, prefix_cons. by destruct (ascii_dec c c).
Qed.

(** X19: a login sweeps the subject's own markers: every live marker
    that a logout wrote for a session token of the user who logs in is
    gone afterwards, so that session token is no longer refused as
    revoked. *)
Theorem login_sweeps_own_markers (I : users.user_doc) (now : Z) (ua ur : N)
    (s : Redis.db) (p : dict) (e : Redis.entry) :
  Redis.outage s = None →
  dict_get "sub" p = VStr (users._id I) →
  Redis.data s !! marker_key p = Some e →
  Redis.value e = marker_value p →
  Redis.live now e = true →
  ∃ pair s',
    encode_login_token self (users.user_payload I) now ua ur s = (Return pair, s') ∧
    Redis.data s' !! marker_key p = None ∧
    ∀ now', RedisClient.get now' (marker_key p) s' = (Return None, s').
Proof.
  intros Hout Hsub Hk Hv Hlive.
  destruct (encode_login_token_run self (users.user_payload I) now ua ur s Hout)
    as (s' & Hrun & Hout' & Hdata).
  rewrite user_payload_id in Hdata. cbn [py_str] in Hdata.
  assert (Redis.data s' !! marker_key p = None) as Hgone.
  { rewrite Hdata.
    assert (Redis.glob "token:*" (marker_key p) = true) as -> by done.
    assert (references now (users._id I) s (marker_key p) = true) as ->; [|done].
    unfold references, Redis.lookup_live. rewrite Hk, Hlive. cbn [default from_option id].
    rewrite Hv, marker_value_truthy. unfold startswith, marker_value.
    rewrite Hsub. cbn [py_str andb]. rewrite <- app_assoc. apply prefix_app. }
  eexists _, s'. split; [exact Hrun|]. split; [done|].
  intros now'. rewrite get_run by done.
  unfold Redis.lookup_live. by rewrite Hgone.
Qed.

End login.

(** * The enrollment period of [src/routes/config.py] *)
Section dates.
Context (strftime : config.datetime → string).

Lemma to_utc_Done (dt u : config.datetime) :
  config.to_utc dt = config.Done u →
  config.tzinfo u = Some 0 ∧ config.wall u = instant dt ∧
  (is_Some (config.tzinfo dt) → config.in_range (config.wall u) = true).
Proof.
  unfold config.to_utc, instant, config.add. destruct dt as [w [off|]]; simpl.
  - destruct (config.in_range (w + - off)) eqn:Hr; [|done].
    intros [= <-]. simpl. split; [done|]. split; [lia|done].
  - intros [= <-]. simpl. split; [done|]. split; [lia|]. by intros [? ?].
Qed.

(** X20: [to_utc] keeps the instant, reading a datetime without
    [tzinfo] as UTC, and gives a datetime at offset zero on which it
    changes nothing more. *)
Theorem to_utc_keeps_the_instant (dt u : config.datetime) :
  config.in_range (config.wall dt) = true →
  config.to_utc dt = config.Done u →
  config.tzinfo u = Some 0 ∧ instant u = instant dt ∧
  config.to_utc u = config.Done u.
Proof.
  intros Hvalid Hu. destruct (to_utc_Done _ _ Hu) as (Htz & Hw & Hr).
  split; [done|]. split.
  - unfold instant at 1. rewrite Htz, Hw. simpl. lia.
  - assert (config.in_range (config.wall u) = true) as Hin.
    { destruct (config.tzinfo dt) as [off|] eqn:Hoff; [by apply Hr|].
      rewrite Hw. unfold instant. rewrite Hoff. simpl.
      by replace (config.wall dt - 0) with (config.wall dt) by lia. }
    destruct u as [w tz]. simpl in *. subst tz.
    unfold config.to_utc, config.add. simpl.
    replace (w + - 0) with w by lia. by rewrite Hin.
Qed.

(** X21: [validate_dates] accepts a period exactly when both dates
    convert to UTC and the end lies at least one hour after the start,
    as instants; a naive date is read as UTC. *)
Theorem validate_dates_accepts_iff (start_date end_date : config.datetime) :
  config.in_range (config.wall start_date) = true →
  config.in_range (config.wall end_date) = true →
  config.validate_dates strftime start_date end_date = config.Done tt ↔
  (∃ s e, config.to_utc start_date = config.Done s ∧
          config.to_utc end_date = config.Done e) ∧
  instant start_date + hours 1 ≤ instant end_date.
Proof.
  intros Hs He. unfold config.validate_dates.
  destruct (config.to_utc start_date) as [s|err] eqn:Es.
  2:{ split; [done|]. by intros [(? & ? & ? & _) _]. }
  destruct (config.to_utc end_date) as [e|err] eqn:Ee.
  2:{ split; [done|]. by intros [(? & ? & _ & ?) _]. }
  destruct (to_utc_Done _ _ Es) as (_ & Hws & Hrs).
  destruct (to_utc_Done _ _ Ee) as (_ & Hwe & Hre).
  assert (config.in_range (config.wall s) = true) as Hins.
  { destruct (config.tzinfo start_date) as [off|] eqn:Hoff; [by apply Hrs|].
    rewrite Hws. unfold instant. rewrite Hoff. simpl.
    by replace (config.wall start_date - 0) with (config.wall start_date) by lia. }
  assert (config.in_range (config.wall e) = true) as Hine.
  { destruct (config.tzinfo end_date) as [off|] eqn:Hoff; [by apply Hre|].
    rewrite Hwe. unfold instant. rewrite Hoff. simpl.
    by replace (config.wall end_date - 0) with (config.wall end_date) by lia. }
  rewrite <- Hws, <- Hwe.
  unfold config.in_range, config.MIN, config.MAX in Hins, Hine.
  apply andb_true_iff in Hins as [Hs1 Hs2]. apply andb_true_iff in Hine as [He1 He2].
  apply Z.leb_le in Hs1, Hs2, He1, He2.
  destruct (Z.leb_spec (config.wall e) (config.wall s)) as [Hle|Hlt].
  { split; [done|]. intros [_ H]. unfold hours, jwt.usec in H. lia. }
  unfold config.add.
  destruct (config.in_range (config.wall s + hours 1)) eqn:Hr; simpl.
  - destruct (Z.ltb_spec (config.wall e) (config.wall s + hours 1)) as [Hshort|Hok].
    + split; [done|]. intros [_ H]. lia.
    + split; [|done]. intros _. split; [by exists s, e|done].
  - split; [done|]. intros [_ H].
    unfold config.in_range, config.MIN, config.MAX in Hr.
    apply andb_false_iff in Hr as [Hr|Hr]; apply Z.leb_gt in Hr;
      unfold hours, jwt.usec in *; lia.
Qed.

(** X22: a period that fails is told apart by what is wrong with it:
    an end that is not after the start gives the error that the start
    must come first; an end less than an hour after the start gives the
    error that asks for one hour, unless the start lies in the last hour
    of year 9999, where adding the hour raises [OverflowError]. *)
Theorem validate_dates_errors (start_date end_date s e : config.datetime) :
  config.to_utc start_date = config.Done s →
  config.to_utc end_date = config.Done e →
  config.in_range (config.wall s) = true →
  (instant end_date ≤ instant start_date →
   config.validate_dates strftime start_date end_date
     = config.Raised (config.ValueError_
         ("A data de início (" +:+ strftime s +:+ ") "
          +:+ "deve ser anterior à data de término (" +:+ strftime e +:+ ")"))) ∧
  (instant start_date < instant end_date < instant start_date + hours 1 →
   instant start_date + hours 1 ≤ config.MAX →
   config.validate_dates strftime start_date end_date
     = config.Raised (config.ValueError_
         ("A data de término (" +:+ strftime e +:+ ") "
          +:+ "deve ser pelo menos 1 hora após a data de início ("
          +:+ strftime s +:+ ")"))) ∧
  (instant start_date < instant end_date →
   config.MAX < instant start_date + hours 1 →
   config.validate_dates strftime start_date end_date
     = config.Raised (config.OverflowError "date value out of range")).
Proof.
  intros Es Ee Hins. unfold config.validate_dates. rewrite Es, Ee.
  destruct (to_utc_Done _ _ Es) as (_ & Hws & _).
  destruct (to_utc_Done _ _ Ee) as (_ & Hwe & _).
  rewrite <- Hws, <- Hwe.
  unfold config.in_range in Hins.
  apply andb_true_iff in Hins as [Hs1 Hs2]. apply Z.leb_le in Hs1, Hs2.
  assert (0 ≤ hours 1) as Hh by (unfold hours, jwt.usec; lia).
  split; [|split].
  - intros Hle. by destruct (Z.leb_spec (config.wall e) (config.wall s)); [|lia].
  - intros [Hlt Hshort] Hmax.
    destruct (Z.leb_spec (config.wall e) (config.wall s)); [lia|].
    unfold config.add, config.in_range.
    destruct (Z.leb_spec config.MIN (config.wall s + hours 1)); [|lia].
    destruct (Z.leb_spec (config.wall s + hours 1) config.MAX); [|lia].
    simpl. by destruct (Z.ltb_spec (config.wall e) (config.wall s + hours 1)); [|lia].
  - intros Hlt Hmax.
    destruct (Z.leb_spec (config.wall e) (config.wall s)); [lia|].
    unfold config.add, config.in_range.
    destruct (Z.leb_spec (config.wall s + hours 1) config.MAX); [lia|].
    by rewrite andb_false_r.
Qed.

End dates.

(** * The further theorems at the scenario *)
Section more_scenarios.
Import scenario scenario_login.

Ltac evaluate := vm_compute; reflexivity.

(** Witness of X1. *)
Lemma adjust_cpf_returns_six_digits_witness :
  utils.adjust_cpf "123.456.789-01" = Valid "456789" ∧
  String.length "123.456.789-01" = 14%nat ∧ String.length "456789" = 6%nat ∧
  pystr.all_chars pystr.is_decimal "456789" = true.
Proof.
  split; [evaluate|].
  apply (adjust_cpf_returns_six_digits "123.456.789-01" "456789"). evaluate.
Defined.

(** Witness of X2. *)
Lemma adjust_cpf_accepts_iff_witness :
  ∃ r, utils.adjust_cpf "12345678901234" = Valid r.
Proof.
  apply (adjust_cpf_accepts_iff "12345678901234").
  split; [reflexivity|vm_compute; lia].
Defined.

(** Witness of X3. *)
Lemma adjust_cpf_formatted_witness :
  utils.adjust_cpf ("123" +:+ "." +:+ "456" +:+ "." +:+ "789" +:+ "-" +:+ "01")
  = Valid ("456" +:+ "789").
Proof. apply (adjust_cpf_formatted "123" "456" "789" "01"); reflexivity. Defined.

(** Witness of X4. *)
Lemma validated_cpf_round_trip_witness :
  schemas.validate_cpf "123.456.789-01" = Valid "456789" ∧
  utils.adjust_cpf (enrollment.cpf_to_pass "456789") = Valid "456789".
Proof.
  split; [evaluate|].
  apply (validated_cpf_round_trip "123.456.789-01" "456789"). evaluate.
Defined.

(** Witness of X5. *)
Lemma validate_semester_format_accepts_iff_witness :
  schemas.validate_semester_format "2024.1" = Valid "2024.1".
Proof.
  apply (validate_semester_format_accepts_iff "2024.1" "2024.1").
  split; [reflexivity|].
  exists "2"%char, "0"%char, "2"%char, "4"%char, "1"%char.
  repeat split; try reflexivity; discriminate.
Defined.

(** Witness of X6. *)
Lemma delete_validate_semester_accepts_iff_witness :
  schemas.delete_validate_semester ("2024.1" +:+ newline)
  = Valid ("2024.1" +:+ newline).
Proof.
  apply (delete_validate_semester_accepts_iff ("2024.1" +:+ newline)
           ("2024.1" +:+ newline)).
  split; [reflexivity|].
  exists "2"%char, "0"%char, "2"%char, "4"%char, "1"%char, newline.
  repeat split; try reflexivity. by right.
Defined.

(** Witness of X7. *)
Lemma semester_validators_disagree_witness :
  schemas.delete_validate_semester "0000.0" = Valid "0000.0" ∧
  (schemas.validate_semester_format "0000.0" = Valid "0000.0" ↔
   "0"%char ≠ "0"%char ∧ "0"%char ≠ "0"%char).
Proof.
  apply (semester_validators_disagree "0" "0" "0" "0" "0"); reflexivity.
Defined.

(** Witness of X9. *)
Lemma foreign_tokens_are_invalid_witness :
  decode_access_token auth_handler forged_session t_check = Raise Invalid_token ∧
  decode_refresh_token auth_handler forged_session t_check = Raise Invalid_token ∧
  ∀ request auth s,
    cookie request "session-token" = Some forged_session →
    auth_user auth_handler request auth t_check s = (Raise Invalid_token, s).
Proof.
  apply (foreign_tokens_are_invalid auth_handler forged_session t_check).
  intros p H. inversion H.
Defined.

(** Witness of X10: Alice's October logout on Paris time, where the
    offset drops by an hour before the token expires. *)
Lemma marker_expires_with_token_witness :
  ∃ p exp e,
    decode_refresh_token auth_handler october_session t_october_logout = Return p ∧
    p !! "exp" = Some (VInt exp) ∧
    Redis.data october_store !! marker_key p = Some e ∧
    Redis.value e = marker_value p ∧
    t_october_logout + jwt.usec ≤ Redis.expire_at e ∧
    (exp * jwt.usec - t_october_logout + offset_change paris t_october_logout exp
       < exact_span →
     exp * jwt.usec + offset_change paris t_october_logout exp - jwt.usec
       < Redis.expire_at e
     ∧ Redis.expire_at e
       ≤ exp * jwt.usec + offset_change paris t_october_logout exp) ∧
    (offset_change paris t_october_logout exp = 0 →
     exp * jwt.usec - t_october_logout < exact_span →
     exp * jwt.usec - jwt.usec < Redis.expire_at e ≤ exp * jwt.usec) ∧
    ∀ k, k ≠ marker_key p →
         Redis.data october_store !! k = Redis.data empty_store !! k.
Proof.
  apply (marker_expires_with_token auth_handler paris october_session
           t_october_logout empty_store october_store
           (VStr "64b7f3a2c1d4e5f6a7b8c9d0")).
  evaluate.
Defined.

(** Witness of X11. *)
Lemma expired_session_is_a_500_witness :
  users.refresh_login_user auth_handler (with_session alice_session) mongo
      1702592000000000 30 empty_store
    = (Raise (HTTPException HTTP_500_INTERNAL_SERVER_ERROR
                "Internal server error: 401: Signature has expired"), empty_store) ∧
  users.logout_user auth_handler utc (with_session alice_session) mongo
      1702592000000000 empty_store
    = (Raise (HTTPException HTTP_500_INTERNAL_SERVER_ERROR
                "Internal server error: 401: Signature has expired"), empty_store).
Proof.
  apply (expired_session_is_a_500 auth_handler utc (with_session alice_session) mongo
           1702592000000000 30 empty_store (claims_of alice_session) 1702592000);
    [evaluate|evaluate|by vm_compute].
Defined.

(** Witness of X12. *)
Lemma logout_user_revokes_first_witness :
  users.logout_user auth_handler utc (with_session alice_session) mongo t_logout
      empty_store
  = (Return (users.Response HTTP_200_OK (users.detail "User logout successfully")),
     revoked_store).
Proof.
  rewrite (logout_user_revokes_first auth_handler utc (with_session alice_session)
             mongo t_logout empty_store alice_session (claims_of alice_session)
             1702592000 2591399);
    [evaluate|evaluate|evaluate|evaluate|evaluate|reflexivity|evaluate|by vm_compute].
Defined.

(** Witness of X14. *)
Lemma decorators_follow_issued_claims_witness :
  Depends_auth_user auth_handler (utils.require_active_user ran)
      (with_session alice_session) (bearer alice_access) tt t_check empty_store
    = (Return (inr "ran"), empty_store) ∧
  Depends_auth_user auth_handler (utils.require_admin_active ran)
      (with_session alice_session) (bearer alice_access) tt t_check empty_store
    = (Return (inl utils.Unauthorized), empty_store).
Proof.
  apply (decorators_follow_issued_claims auth_handler ran (with_session alice_session)
           tt alice_session alice t_login t_check 7 empty_store);
    [evaluate|evaluate|by vm_compute].
Defined.

(** Witness of X15. *)
Lemma failed_login_leaves_no_trace_witness :
  login.login_user checkpw auth_handler carol_form mongo t_login 7 8 unreachable_store
    = (Return (login.Reply HTTP_401_UNAUTHORIZED (users.detail "User not found") None),
       unreachable_store) ∧
  login.login_user checkpw auth_handler alice_typo mongo t_login 7 8 unreachable_store
    = (Return (login.Reply HTTP_401_UNAUTHORIZED
                 (users.detail "Username or password not valid") None),
       unreachable_store).
Proof.
  split.
  - apply (failed_login_leaves_no_trace checkpw auth_handler carol_form mongo t_login
             7 8 unreachable_store).
    intros u [<-|[<-|[<-|[]]]]; simpl; intros; done.
  - apply (failed_login_leaves_no_trace checkpw auth_handler alice_typo mongo t_login
             7 8 unreachable_store) with (user := alice); evaluate.
Defined.

(** Witness of X16. *)
Lemma login_issues_admitted_pair_witness :
  ∃ access_token refresh_token s',
    login.login_user checkpw auth_handler alice_form mongo t_login 7 8 empty_store
      = (Return (login.Reply login.HTTP_201_CREATED (users.token_body access_token)
                   (Some refresh_token)), s') ∧
    dict_get "sub" (claims_of access_token) = VStr "64b7f3a2c1d4e5f6a7b8c9d0" ∧
    dict_get "sub" (claims_of refresh_token) = VStr "64b7f3a2c1d4e5f6a7b8c9d0" ∧
    auth_user auth_handler (with_session refresh_token) (bearer access_token)
        t_check s'
      = (Return (claims_of access_token), s').
Proof.
  apply (login_issues_admitted_pair checkpw auth_handler alice_form mongo t_login
           t_check 7 8 empty_store alice);
    [evaluate|evaluate|reflexivity|evaluate|by vm_compute].
Defined.

(** Witness of X17. *)
Lemma login_needs_the_store_witness :
  login.login_user checkpw auth_handler alice_form mongo t_login 7 8 unreachable_store
  = (Raise (HTTPException HTTP_500_INTERNAL_SERVER_ERROR
              ("Internal server error: "
               +:+ "Error 111 connecting to redis:6379. Connection refused.")),
     unreachable_store).
Proof.
  apply (login_needs_the_store checkpw auth_handler alice_form mongo t_login 7 8
           unreachable_store alice); evaluate.
Defined.

(** Witness of X18. *)
Lemma login_logout_locks_witness :
  ∃ access_token refresh_token s1,
    login.login_user checkpw auth_handler alice_form mongo t_login 7 8 empty_store
      = (Return (login.Reply login.HTTP_201_CREATED (users.token_body access_token)
                   (Some refresh_token)), s1) ∧
    let p := claims_of refresh_token in
    let s2 := Redis.Db None
                (<[marker_key p :=
                     Redis.Entry (marker_value p) (t_logout + 2591399 * jwt.usec)]>
                   (Redis.data s1)) in
    users.logout_user auth_handler utc (with_session refresh_token) mongo t_logout s1
      = (Return (users.Response HTTP_200_OK
                   (users.detail "User logout successfully")), s2) ∧
    ∀ auth t2,
      t_logout ≤ t2 → t2 < t_logout + 2591399 * jwt.usec →
      t2 < timegm (t_login + hours 720) * jwt.usec →
      auth_user auth_handler (with_session refresh_token) auth t2 s2
        = (Raise Token_locked, s2).
Proof.
  apply (login_logout_locks checkpw auth_handler utc alice_form mongo t_login
           t_logout 7 8 empty_store alice 2591399);
    [evaluate|evaluate|evaluate|reflexivity|by vm_compute|by vm_compute
    |evaluate|by vm_compute].
Defined.

(** Witness of X19. *)
Lemma login_sweeps_own_markers_witness :
  ∃ pair s',
    encode_login_token auth_handler (users.user_payload alice) t_relogin 10 11
        revoked_store
      = (Return pair, s') ∧
    Redis.data s' !! marker_key (claims_of alice_session) = None ∧
    ∀ now', RedisClient.get now' (marker_key (claims_of alice_session)) s'
            = (Return None, s').
Proof.
  apply (login_sweeps_own_markers auth_handler alice t_relogin 10 11 revoked_store
           (claims_of alice_session)
           (Redis.Entry "64b7f3a2c1d4e5f6a7b8c9d0:True" 1702591999250000));
    evaluate.
Defined.

(** Witness of X20. *)
Lemma to_utc_keeps_the_instant_witness :
  config.to_utc paris_two_pm = config.Done (config.Datetime 1700053200000000 (Some 0)) ∧
  instant (config.Datetime 1700053200000000 (Some 0)) = instant paris_two_pm.
Proof.
  split; [evaluate|].
  apply (to_utc_keeps_the_instant paris_two_pm
           (config.Datetime 1700053200000000 (Some 0))); evaluate.
Defined.

(** Witness of X21. *)
Lemma validate_dates_accepts_iff_witness :
  config.validate_dates strftime utc_noon paris_two_pm = config.Done tt.
Proof.
  apply (validate_dates_accepts_iff strftime utc_noon paris_two_pm);
    [evaluate|evaluate|].
  split; [by eexists _, _|by vm_compute].
Defined.

(** Witness of X22. *)
Lemma validate_dates_errors_witness :
  config.validate_dates strftime paris_two_pm utc_noon
  = config.Raised (config.ValueError_
      ("A data de início (" +:+ "--/--/---- --:--" +:+ ") "
       +:+ "deve ser anterior à data de término (" +:+ "--/--/---- --:--" +:+ ")")).
Proof.
  apply (validate_dates_errors strftime paris_two_pm utc_noon
           (config.Datetime 1700053200000000 (Some 0))
           (config.Datetime 1700049600000000 (Some 0)));
    [evaluate|evaluate|evaluate|by vm_compute].
Defined.

End more_scenarios.
